(** * x402 on Sui: the facilitator's verify / settle protocol

    A shallow embedding of [ExactSuiScheme] (the facilitator scheme of the
    exact payment mechanism) and of the helpers it calls, followed by the
    properties of the two-phase verify-then-settle protocol.

    JavaScript values are embedded as follows.
    - strings are [string]; [undefined] fields are [option];
    - a thrown value is a [JsThrown]: an [Error] instance with its message,
      or any other value together with the text [String(value)] yields;
    - an evaluation that may throw is a [Completion];
    - a promise is its eventual outcome plus the instant it settles, which
      is what [Promise.all] observes;
    - calls to the signer (the chain gateway) are recorded in a call log and
      act on an abstract chain state. *)

From Stdlib Require Import String Ascii List ZArith Bool Arith Lia.
Import ListNotations.

Local Open Scope string_scope.
Local Open Scope bool_scope.

(** ** JavaScript completions and thrown values *)

Inductive JsThrown : Type :=
| ErrorInstance (message : string)
| ThrownValue (text : string).

Inductive Completion (A : Type) : Type :=
| Normal (value : A)
| Throw (error : JsThrown).

Arguments Normal {A} value.
Arguments Throw {A} error.

(** [error instanceof Error ? error.message : String(error)] *)
Definition messageOf (error : JsThrown) : string :=
  match error with
  | ErrorInstance message => message
  | ThrownValue text => text
  end.

Definition cbind {A B : Type} (c : Completion A) (k : A -> Completion B)
  : Completion B :=
  match c with
  | Normal a => k a
  | Throw e => Throw e
  end.

(** ** String helpers of the JavaScript standard library *)

Module Js.

(** [haystack.includes(needle)] *)
Fixpoint includes (needle haystack : string) : bool :=
  String.prefix needle haystack
  || match haystack with
     | EmptyString => false
     | String _ rest => includes needle rest
     end.

(** [a || fallback] on an optional string: [undefined] and [""] are falsy. *)
Definition truthy (o : option string) : bool :=
  match o with
  | Some s => negb (s =? "")
  | None => false
  end.

Definition orElse (o : option string) (fallback : string) : string :=
  if truthy o then match o with Some s => s | None => fallback end
  else fallback.

(** [a ?? fallback] *)
Definition nullish {A : Type} (o : option A) (fallback : A) : A :=
  match o with
  | Some a => a
  | None => fallback
  end.

Definition isStrWhiteSpaceChar (c : ascii) : bool :=
  let n := nat_of_ascii c in
  (n =? 9)%nat || (n =? 10)%nat || (n =? 11)%nat || (n =? 12)%nat
  || (n =? 13)%nat || (n =? 32)%nat.

Fixpoint dropWhile {A : Type} (p : A -> bool) (l : list A) : list A :=
  match l with
  | [] => []
  | x :: t => if p x then dropWhile p t else l
  end.

Definition trim (s : string) : string :=
  let front := dropWhile isStrWhiteSpaceChar (list_ascii_of_string s) in
  string_of_list_ascii
    (rev (dropWhile isStrWhiteSpaceChar (rev front))).

Definition digitValue (c : ascii) : option Z :=
  let n := Z.of_nat (nat_of_ascii c) in
  if (48 <=? n)%Z && (n <=? 57)%Z then Some (n - 48)%Z
  else if (97 <=? n)%Z && (n <=? 102)%Z then Some (n - 87)%Z
  else if (65 <=? n)%Z && (n <=? 70)%Z then Some (n - 55)%Z
  else None.

Fixpoint parseDigits (radix acc : Z) (s : string) : option Z :=
  match s with
  | EmptyString => Some acc
  | String c rest =>
      match digitValue c with
      | Some d =>
          if (d <? radix)%Z then parseDigits radix (acc * radix + d)%Z rest
          else None
      | None => None
      end
  end.

Definition parseNonEmptyDigits (radix : Z) (s : string) : option Z :=
  match s with
  | EmptyString => None
  | _ => parseDigits radix 0%Z s
  end.

Definition isChar (c : ascii) (lower upper : ascii) : bool :=
  Ascii.eqb c lower || Ascii.eqb c upper.

(** The abstract operation StringToBigInt of ECMAScript: surrounding
    white space is dropped, the empty text is zero, a decimal literal may
    carry a sign, and a literal with a radix prefix may not.  White space
    is the ASCII part of StrWhiteSpaceChar. *)
Definition StringToBigInt (s : string) : option Z :=
  let text := trim s in
  match text with
  | EmptyString => Some 0%Z
  | String c rest =>
      if Ascii.eqb c "+" then parseNonEmptyDigits 10 rest
      else if Ascii.eqb c "-" then
        option_map Z.opp (parseNonEmptyDigits 10 rest)
      else
        match rest with
        | String p digits =>
            if Ascii.eqb c "0" && isChar p "x" "X"
            then parseNonEmptyDigits 16 digits
            else if Ascii.eqb c "0" && isChar p "o" "O"
            then parseNonEmptyDigits 8 digits
            else if Ascii.eqb c "0" && isChar p "b" "B"
            then parseNonEmptyDigits 2 digits
            else parseNonEmptyDigits 10 text
        | EmptyString => parseNonEmptyDigits 10 text
        end
  end.

(** [BigInt(s)] on a string: the integer, or a SyntaxError (an [Error]
    instance; the message is the one Node's engine gives). *)
Definition BigInt (s : string) : Completion Z :=
  match StringToBigInt s with
  | Some z => Normal z
  | None => Throw (ErrorInstance ("Cannot convert " ++ s ++ " to a BigInt"))
  end.

(** [array.find(predicate)] for a predicate whose evaluation may throw. *)
Fixpoint find {A : Type} (predicate : A -> Completion bool) (l : list A)
  : Completion (option A) :=
  match l with
  | [] => Normal None
  | x :: rest =>
      match predicate x with
      | Throw e => Throw e
      | Normal true => Normal (Some x)
      | Normal false => find predicate rest
      end
  end.

End Js.

(** ** Data model *)

(** [ObjectOwner] of a balance change: the owner tag of the Sui client. *)
Inductive ObjectOwner : Type :=
| AddressOwner (address : string)
| ObjectOwnerOf (object : string)
| Shared (initial_shared_version : string)
| Immutable.

Record BalanceChange : Type := {
  owner : ObjectOwner;
  coinType : string;
  amount : string
}.

Record ExecutionStatus : Type := {
  status : string;
  error : option string
}.

Record TransactionEffects : Type := {
  effects_status : option ExecutionStatus
}.

Record DryRunTransactionBlockResponse : Type := {
  effects : option TransactionEffects;
  balanceChanges : option (list BalanceChange)
}.

(** [ExactSuiPayload]; a field missing at run time is [None]. *)
Record ExactSuiPayload : Type := {
  signature : option string;
  transaction : option string
}.

Module Accepted.
Record t : Type := { scheme : string; network : string }.
End Accepted.

Record PaymentPayload : Type := {
  x402Version : Z;
  accepted : Accepted.t;
  payload : option ExactSuiPayload
}.

Module Requirements.
Record t : Type := {
  scheme : string;
  network : string;
  asset : string;
  amount : string;
  payTo : string;
  maxTimeoutSeconds : Z
}.
End Requirements.

Definition PaymentRequirements : Type := Requirements.t.

Module VerifyResponse.
Record t : Type := {
  isValid : bool;
  invalidReason : option string;
  invalidMessage : option string;
  payer : option string
}.
End VerifyResponse.

Module SettleResponse.
Record t : Type := {
  success : bool;
  errorReason : option string;
  errorMessage : option string;
  transaction : string;
  network : string;
  payer : option string
}.
End SettleResponse.

(** ** Promises

    A promise is represented by what it settles to and by the instant at
    which it settles.  [Promise.all] fulfils when every member has
    fulfilled, and rejects with the reason of the member that rejects
    first; members already rejected are seen in array order. *)

Record Promise (A : Type) : Type := {
  outcome : Completion A;
  settledAt : nat
}.

Arguments outcome {A} _.
Arguments settledAt {A} _.

Definition Promise_all {A B : Type} (p1 : Promise A) (p2 : Promise B)
  : Promise (A * B) :=
  match outcome p1, outcome p2 with
  | Normal a, Normal b =>
      {| outcome := Normal (a, b);
         settledAt := Nat.max (settledAt p1) (settledAt p2) |}
  | Throw e1, Normal _ => {| outcome := Throw e1; settledAt := settledAt p1 |}
  | Normal _, Throw e2 => {| outcome := Throw e2; settledAt := settledAt p2 |}
  | Throw e1, Throw e2 =>
      if (settledAt p2 <? settledAt p1)%nat
      then {| outcome := Throw e2; settledAt := settledAt p2 |}
      else {| outcome := Throw e1; settledAt := settledAt p1 |}
  end.

(** ** The chain gateway and the effects of the scheme *)

Inductive GatewayCall : Type :=
| CallVerifySignature (transactionBytes signature network : string)
| CallSimulateTransaction (transactionBytes network : string)
| CallExecuteTransaction (transaction signature network : string)
| CallWaitForTransaction (digest network : string).

(** The calls that broadcast: the only ones that can change the chain. *)
Definition isBroadcast (c : GatewayCall) : bool :=
  match c with
  | CallExecuteTransaction _ _ _ => true
  | _ => false
  end.

Section Scheme.

(** The state of the chain behind the gateway. *)
Variable Chain : Type.

(** [normalizeStructTag] of the Sui client library, which may throw on a
    text that is not a struct tag. *)
Variable normalizeStructTag : string -> Completion string.

(** [FacilitatorSuiSigner]: signature recovery and simulation read the
    chain, execution may change it, and each may fail. *)
Record FacilitatorSuiSigner : Type := {
  getAddresses : list string;
  verifySignature : Chain -> string -> string -> string -> Promise string;
  simulateTransaction :
    Chain -> string -> string -> Promise DryRunTransactionBlockResponse;
  executeTransaction :
    Chain -> string -> string -> string -> Completion string * Chain;
  waitForTransaction : Chain -> string -> string -> Completion unit
}.

Record World : Type := {
  chain : Chain;
  calls : list GatewayCall
}.

Definition logged (w : World) (c : GatewayCall) : World :=
  {| chain := chain w; calls := calls w ++ [c] |}.

(** Computations of an async method: they act on the world and either
    return or throw. *)
Definition M (A : Type) : Type := World -> Completion A * World.

Definition ret {A : Type} (a : A) : M A := fun w => (Normal a, w).

Definition bind {A B : Type} (m : M A) (k : A -> M B) : M B :=
  fun w =>
    match m w with
    | (Normal a, w') => k a w'
    | (Throw e, w') => (Throw e, w')
    end.

Definition lift {A : Type} (c : Completion A) : M A := fun w => (c, w).

(** [await p] *)
Definition await {A : Type} (p : Promise A) : M A := lift (outcome p).

(** [try { body } catch (error) { handler }] *)
Definition tryCatch {A : Type} (body : M A) (handler : JsThrown -> M A)
  : M A :=
  fun w =>
    match body w with
    | (Normal a, w') => (Normal a, w')
    | (Throw e, w') => handler e w'
    end.

Notation "x <- m ;; k" := (bind m (fun x => k))
  (at level 61, m at next level, right associativity).

Variable signer : FacilitatorSuiSigner.

Definition signer_verifySignature (transactionBytes sig net : string)
  : M (Promise string) :=
  fun w =>
    (Normal (verifySignature signer (chain w) transactionBytes sig net),
     logged w (CallVerifySignature transactionBytes sig net)).

Definition signer_simulateTransaction (transactionBytes net : string)
  : M (Promise DryRunTransactionBlockResponse) :=
  fun w =>
    (Normal (simulateTransaction signer (chain w) transactionBytes net),
     logged w (CallSimulateTransaction transactionBytes net)).

Definition signer_executeTransaction (tx sig net : string) : M string :=
  fun w =>
    let '(result, chain') := executeTransaction signer (chain w) tx sig net in
    (result,
     {| chain := chain';
        calls := calls w ++ [CallExecuteTransaction tx sig net] |}).

Definition signer_waitForTransaction (digest net : string) : M unit :=
  fun w =>
    (waitForTransaction signer (chain w) digest net,
     logged w (CallWaitForTransaction digest net)).

(** ** utils.ts *)

Definition coinTypesEqual (a b : string) : Completion bool :=
  cbind (normalizeStructTag a) (fun na =>
  cbind (normalizeStructTag b) (fun nb =>
  Normal (na =? nb))).

(** ** ExactSuiScheme (facilitator) *)

Definition extractAddress (o : ObjectOwner) : string :=
  match o with
  | Immutable => ""
  | AddressOwner address => address
  | _ => ""
  end.

(** [dryRunResult.effects?.status?.status] *)
Definition effectsStatus (d : DryRunTransactionBlockResponse)
  : option string :=
  match effects d with
  | Some e => option_map status (effects_status e)
  | None => None
  end.

(** [dryRunResult.effects?.status?.error] *)
Definition effectsError (d : DryRunTransactionBlockResponse)
  : option string :=
  match effects d with
  | Some e =>
      match effects_status e with
      | Some s => error s
      | None => None
      end
  | None => None
  end.

Definition isSuccess (o : option string) : bool :=
  match o with
  | Some s => s =? "success"
  | None => false
  end.

Definition invalid (reason : string) (message payer : option string)
  : VerifyResponse.t :=
  {| VerifyResponse.isValid := false;
     VerifyResponse.invalidReason := Some reason;
     VerifyResponse.invalidMessage := message;
     VerifyResponse.payer := payer |}.

(** The predicates given to [balanceChanges.find]. *)
Definition isRecipientChange (requirements : PaymentRequirements)
  (bc : BalanceChange) : bool :=
  extractAddress (owner bc) =? Requirements.payTo requirements.

Definition isRecipientAssetChange (requirements : PaymentRequirements)
  (bc : BalanceChange) : Completion bool :=
  if isRecipientChange requirements bc
  then coinTypesEqual (coinType bc) (Requirements.asset requirements)
  else Normal false.

(** The part of the [try] block that follows the join: it either returns
    a response ([inl]) or falls through with [payer] assigned ([inr]). *)
Definition checkDryRun (requirements : PaymentRequirements)
  (recoveredPayer : string) (dryRunResult : DryRunTransactionBlockResponse)
  : Completion (VerifyResponse.t + string) :=
  let payer := recoveredPayer in
  if negb (isSuccess (effectsStatus dryRunResult)) then
    Normal (inl (invalid
      "invalid_exact_sui_payload_transaction_dry_run_failed"
      (Some (Js.orElse (effectsError dryRunResult) "Simulation failed"))
      (Some payer)))
  else
    let changes := Js.nullish (balanceChanges dryRunResult) [] in
    cbind (Js.find (isRecipientAssetChange requirements) changes)
      (fun recipientChange =>
         match recipientChange with
         | None =>
             match List.find (isRecipientChange requirements) changes with
             | Some _ =>
                 Normal (inl (invalid
                   "invalid_exact_sui_payload_asset_mismatch"
                   None (Some payer)))
             | None =>
                 Normal (inl (invalid
                   "invalid_exact_sui_payload_recipient_mismatch"
                   None (Some payer)))
             end
         | Some change =>
             cbind (Js.BigInt (amount change)) (fun receivedAmount =>
             cbind (Js.BigInt (Requirements.amount requirements))
               (fun required =>
                  if (receivedAmount <? required)%Z then
                    Normal (inl (invalid
                      "invalid_exact_sui_payload_amount_insufficient"
                      None (Some payer)))
                  else Normal (inr payer)))
         end).

(** The [catch] block of [verify]. *)
Definition classifyError (e : JsThrown) : VerifyResponse.t :=
  let errorMessage := messageOf e in
  if Js.includes "Signature verification failed" errorMessage
     || Js.includes "Invalid signature" errorMessage
  then
    invalid
      "invalid_exact_sui_payload_transaction_signature_verification_failed"
      (Some errorMessage) None
  else
    invalid "transaction_simulation_failed" (Some errorMessage) None.

(** [suiPayload?.transaction] and [suiPayload?.signature] *)
Definition payloadTransaction (p : PaymentPayload) : option string :=
  match payload p with
  | Some body => transaction body
  | None => None
  end.

Definition payloadSignature (p : PaymentPayload) : option string :=
  match payload p with
  | Some body => signature body
  | None => None
  end.

(** The text passed to the signer once the field is known to be there. *)
Definition payloadText (o : option string) : string := Js.nullish o "".

Definition verify (p : PaymentPayload) (requirements : PaymentRequirements)
  : M VerifyResponse.t :=
  if negb (Accepted.scheme (accepted p) =? "exact")
     || negb (Requirements.scheme requirements =? "exact")
  then ret (invalid "unsupported_scheme" None None)
  else if negb (Accepted.network (accepted p)
                =? Requirements.network requirements)
  then ret (invalid "network_mismatch" None None)
  else
    let tx := payloadTransaction p in
    let sg := payloadSignature p in
    if negb (Js.truthy tx) || negb (Js.truthy sg)
    then ret (invalid
           "invalid_exact_sui_payload_transaction_could_not_be_decoded"
           None None)
    else
      r <- tryCatch
             (p1 <- signer_verifySignature (payloadText tx) (payloadText sg)
                      (Requirements.network requirements) ;;
              p2 <- signer_simulateTransaction (payloadText tx)
                      (Requirements.network requirements) ;;
              joined <- await (Promise_all p1 p2) ;;
              lift (checkDryRun requirements (fst joined) (snd joined)))
             (fun e => ret (inl (classifyError e))) ;;
      match r with
      | inl response => ret response
      | inr payer =>
          ret {| VerifyResponse.isValid := true;
                 VerifyResponse.invalidReason := None;
                 VerifyResponse.invalidMessage := None;
                 VerifyResponse.payer := Some payer |}
      end.

Definition settle (p : PaymentPayload) (requirements : PaymentRequirements)
  : M SettleResponse.t :=
  verification <- verify p requirements ;;
  if negb (VerifyResponse.isValid verification) then
    ret {| SettleResponse.success := false;
           SettleResponse.network := Accepted.network (accepted p);
           SettleResponse.transaction := "";
           SettleResponse.errorReason :=
             Some (Js.nullish (VerifyResponse.invalidReason verification)
                     "verification_failed");
           SettleResponse.errorMessage := None;
           SettleResponse.payer := VerifyResponse.payer verification |}
  else
    let tx := payloadTransaction p in
    let sg := payloadSignature p in
    tryCatch
      (digest <- signer_executeTransaction (payloadText tx) (payloadText sg)
                   (Requirements.network requirements) ;;
       _ <- signer_waitForTransaction digest
              (Requirements.network requirements) ;;
       ret {| SettleResponse.success := true;
              SettleResponse.transaction := digest;
              SettleResponse.network := Accepted.network (accepted p);
              SettleResponse.errorReason := None;
              SettleResponse.errorMessage := None;
              SettleResponse.payer := VerifyResponse.payer verification |})
      (fun e =>
         ret {| SettleResponse.success := false;
                SettleResponse.errorReason := Some "transaction_failed";
                SettleResponse.errorMessage := Some (messageOf e);
                SettleResponse.transaction := "";
                SettleResponse.network := Accepted.network (accepted p);
                SettleResponse.payer := VerifyResponse.payer verification |}).

(** ** Vocabulary of the properties *)

(** Steps 0 and 1 and the shape check of [verify] all pass. *)
Definition preChecksPass (p : PaymentPayload)
  (requirements : PaymentRequirements) : bool :=
  (Accepted.scheme (accepted p) =? "exact")
  && (Requirements.scheme requirements =? "exact")
  && (Accepted.network (accepted p) =? Requirements.network requirements)
  && Js.truthy (payloadTransaction p)
  && Js.truthy (payloadSignature p).

(** The two promises [verify] hands to [Promise.all]. *)
Definition signatureCall (p : PaymentPayload)
  (requirements : PaymentRequirements) (w : World) : Promise string :=
  verifySignature signer (chain w)
    (payloadText (payloadTransaction p)) (payloadText (payloadSignature p))
    (Requirements.network requirements).

Definition simulationCall (p : PaymentPayload)
  (requirements : PaymentRequirements) (w : World)
  : Promise DryRunTransactionBlockResponse :=
  simulateTransaction signer (chain w)
    (payloadText (payloadTransaction p))
    (Requirements.network requirements).

(** What [settle] gets from the broadcast. *)
Definition broadcastCall (p : PaymentPayload)
  (requirements : PaymentRequirements) (w : World)
  : Completion string * Chain :=
  executeTransaction signer (chain w)
    (payloadText (payloadTransaction p)) (payloadText (payloadSignature p))
    (Requirements.network requirements).

(** The calls [verify] makes once the pre-checks have passed. *)
Definition readCalls (p : PaymentPayload)
  (requirements : PaymentRequirements) : list GatewayCall :=
  [CallVerifySignature (payloadText (payloadTransaction p))
     (payloadText (payloadSignature p)) (Requirements.network requirements);
   CallSimulateTransaction (payloadText (payloadTransaction p))
     (Requirements.network requirements)].

Definition withCalls (w : World) (new : list GatewayCall) : World :=
  {| chain := chain w; calls := calls w ++ new |}.

Definition validResponse (payer : string) : VerifyResponse.t :=
  {| VerifyResponse.isValid := true;
     VerifyResponse.invalidReason := None;
     VerifyResponse.invalidMessage := None;
     VerifyResponse.payer := Some payer |}.

(** The response [verify] builds from the completion of its [try] block. *)
Definition verdict (c : Completion (VerifyResponse.t + string))
  : VerifyResponse.t :=
  match c with
  | Throw e => classifyError e
  | Normal (inl response) => response
  | Normal (inr payer) => validResponse payer
  end.

(** [requirements] with another asset identifier. *)
Definition withAsset (requirements : PaymentRequirements) (a : string)
  : PaymentRequirements :=
  {| Requirements.scheme := Requirements.scheme requirements;
     Requirements.network := Requirements.network requirements;
     Requirements.asset := a;
     Requirements.amount := Requirements.amount requirements;
     Requirements.payTo := Requirements.payTo requirements;
     Requirements.maxTimeoutSeconds :=
       Requirements.maxTimeoutSeconds requirements |}.

End Scheme.

Arguments verifySignature {Chain} _ _ _ _ _.
Arguments simulateTransaction {Chain} _ _ _ _.
Arguments executeTransaction {Chain} _ _ _ _ _.
Arguments waitForTransaction {Chain} _ _ _ _.
Arguments chain {Chain} _.
Arguments calls {Chain} _.
Arguments verify {Chain} normalizeStructTag signer p requirements _.
Arguments settle {Chain} normalizeStructTag signer p requirements _.
Arguments signatureCall {Chain} signer p requirements w.
Arguments simulationCall {Chain} signer p requirements w.
Arguments broadcastCall {Chain} signer p requirements w.
Arguments withCalls {Chain} w new.

(** ** A struct-tag normalizer and a test signer

    The properties below hold for every normalizer and every signer.  The
    concrete ones here serve to run the scheme on the scenarios of the test
    suite. *)

Module SuiUtils.

Definition lowerChar (c : ascii) : ascii :=
  let n := nat_of_ascii c in
  if (65 <=? n)%nat && (n <=? 90)%nat then ascii_of_nat (n + 32) else c.

Fixpoint toLowerCase (s : string) : string :=
  match s with
  | EmptyString => EmptyString
  | String c rest => String (lowerChar c) (toLowerCase rest)
  end.

Fixpoint zeros (n : nat) : string :=
  match n with
  | O => EmptyString
  | S k => String "0" (zeros k)
  end.

(** [s.padStart(n, "0")] *)
Definition padStart (n : nat) (s : string) : string :=
  zeros (n - String.length s) ++ s.

(** [normalizeSuiAddress]: lower case, no [0x], 64 hex digits, [0x]. *)
Definition normalizeSuiAddress (value : string) : string :=
  let address := toLowerCase value in
  let address :=
    if String.prefix "0x" address
    then substring 2 (String.length address - 2) address
    else address in
  "0x" ++ padStart 64 address.

(** The text before and after the first [::]. *)
Fixpoint splitFirst (s : string) : option (string * string) :=
  if String.prefix "::" s
  then Some (EmptyString, substring 2 (String.length s - 2) s)
  else
    match s with
    | EmptyString => None
    | String c rest =>
        match splitFirst rest with
        | Some (before, after) => Some (String c before, after)
        | None => None
        end
    end.

(** [normalizeStructTag] on tags [address::module::name]: the address is
    normalized, module and name are kept.  A text without [::] has no
    module, and reading its length throws a TypeError.  Type parameters,
    when present, are kept as they are written. *)
Definition normalizeStructTag (type : string) : Completion string :=
  match splitFirst type with
  | None =>
      Throw (ErrorInstance
               "Cannot read properties of undefined (reading 'length')")
  | Some (address, afterAddress) =>
      let '(module, name) :=
        match splitFirst afterAddress with
        | Some (m, rest) => (m, rest)
        | None => (afterAddress, EmptyString)
        end in
      Normal (normalizeSuiAddress address ++ "::" ++ module ++ "::" ++ name)
  end.

End SuiUtils.

Module Mock.

(** The chain of the test signer: the digests executed so far. *)
Definition Chain : Type := list string.

Definition resolved {A : Type} (a : A) : Promise A :=
  {| outcome := Normal a; settledAt := 1 |}.

Definition rejected {A : Type} (at_ : nat) (message : string) : Promise A :=
  {| outcome := Throw (ErrorInstance message); settledAt := at_ |}.

(** [createMockFacilitatorSigner] with its four overrides. *)
Definition signer (sig : Promise string)
  (sim : Promise DryRunTransactionBlockResponse)
  (exec : Completion string) (wait : Completion unit)
  : FacilitatorSuiSigner Chain :=
  {| getAddresses :=
       ["0xaaaaaaaaaaaaaaaaaaaaaaaaaaaaaaaaaaaaaaaaaaaaaaaaaaaaaaaaaaaaaaaa"];
     verifySignature := fun _ _ _ _ => sig;
     simulateTransaction := fun _ _ _ => sim;
     executeTransaction := fun c _ _ _ =>
       (exec, match exec with Normal d => d :: c | Throw _ => c end);
     waitForTransaction := fun _ _ _ => wait |}.

Definition createSuccessfulDryRun (changes : list BalanceChange)
  : DryRunTransactionBlockResponse :=
  {| effects :=
       Some {| effects_status :=
                 Some {| status := "success"; error := None |} |};
     balanceChanges := Some changes |}.

Definition createFailedDryRun (message : string)
  : DryRunTransactionBlockResponse :=
  {| effects :=
       Some {| effects_status :=
                 Some {| status := "failure"; error := Some message |} |};
     balanceChanges := Some [] |}.

Definition PAYER : string :=
  "0xbbbbbbbbbbbbbbbbbbbbbbbbbbbbbbbbbbbbbbbbbbbbbbbbbbbbbbbbbbbbbbbb".
Definition PAYTO : string :=
  "0xcccccccccccccccccccccccccccccccccccccccccccccccccccccccccccccccc".
Definition OTHER : string :=
  "0xdddddddddddddddddddddddddddddddddddddddddddddddddddddddddddddddd".
Definition USDC : string :=
  "0xdba34672e30cb065b1f93e3ab55318768fd6fef66c15942c9f7cb846e2f900e7::usdc::USDC".
Definition SUI : string := "0x2::sui::SUI".
Definition MAINNET : string := "sui:mainnet".

Definition createMockPayload (scheme network : string) : PaymentPayload :=
  {| x402Version := 2;
     accepted := {| Accepted.scheme := scheme; Accepted.network := network |};
     payload := Some {| signature := Some "mock-signature-base64";
                        transaction := Some "mock-transaction-base64" |} |}.

Definition createMockRequirements (asset amount payTo : string)
  : PaymentRequirements :=
  {| Requirements.scheme := "exact";
     Requirements.network := MAINNET;
     Requirements.asset := asset;
     Requirements.amount := amount;
     Requirements.payTo := payTo;
     Requirements.maxTimeoutSeconds := 3600 |}.

Definition change (o : ObjectOwner) (coin amount : string) : BalanceChange :=
  {| owner := o; coinType := coin; amount := amount |}.

Definition start : World Chain := {| chain := []; calls := [] |}.

Definition run_verify (s : FacilitatorSuiSigner Chain) (p : PaymentPayload)
  (r : PaymentRequirements) : Completion VerifyResponse.t :=
  fst (verify SuiUtils.normalizeStructTag s p r start).

Definition run_settle (s : FacilitatorSuiSigner Chain) (p : PaymentPayload)
  (r : PaymentRequirements) : Completion SettleResponse.t * World Chain :=
  settle SuiUtils.normalizeStructTag s p r start.

(** A signer that recovers [PAYER], simulates to the given balance
    changes, and broadcasts with success. *)
Definition returning (changes : list BalanceChange)
  : FacilitatorSuiSigner Chain :=
  signer (resolved PAYER) (resolved (createSuccessfulDryRun changes))
    (Normal "mock-digest-123") (Normal tt).

Definition paying (amount : string) : FacilitatorSuiSigner Chain :=
  returning [change (AddressOwner PAYTO) USDC amount].

Definition thePayload : PaymentPayload := createMockPayload "exact" MAINNET.

Definition theRequirements : PaymentRequirements :=
  createMockRequirements USDC "100000" PAYTO.

(** The world after the two read calls of [verify]. *)
Definition afterReads : World Chain :=
  {| chain := [];
     calls :=
       [CallVerifySignature "mock-transaction-base64"
          "mock-signature-base64" MAINNET;
        CallSimulateTransaction "mock-transaction-base64" MAINNET] |}.

Definition SHORT2 : string := "0x2".
Definition LONG2 : string :=
  "0x0000000000000000000000000000000000000000000000000000000000000002".

End Mock.

(** ** constants.ts and utils.ts *)

Module Constants.

Definition USDC_MAINNET : string :=
  "0xdba34672e30cb065b1f93e3ab55318768fd6fef66c15942c9f7cb846e2f900e7::usdc::USDC".

Definition USDC_TESTNET : string :=
  "0xa1ec7fc00a6f40db9693ad1415d0c193ad3906494428cf252621037bd7117e29::usdc::USDC".

Definition SUI_COIN_TYPE : string := "0x2::sui::SUI".
Definition USDC_DECIMALS : nat := 6.
Definition SUI_DECIMALS : nat := 9.
Definition SUI_MAINNET_CAIP2 : string := "sui:mainnet".
Definition SUI_TESTNET_CAIP2 : string := "sui:testnet".
Definition SUI_DEVNET_CAIP2 : string := "sui:devnet".

End Constants.

Module Utils.

Definition isHexDigit (c : ascii) : bool :=
  let n := nat_of_ascii c in
  ((97 <=? n)%nat && (n <=? 102)%nat)
  || ((65 <=? n)%nat && (n <=? 70)%nat)
  || ((48 <=? n)%nat && (n <=? 57)%nat).

(** [[a-fA-F0-9]{n}$] *)
Fixpoint hexDigitsToEnd (n : nat) (s : string) : bool :=
  match n, s with
  | O, EmptyString => true
  | S k, String c rest => isHexDigit c && hexDigitsToEnd k rest
  | _, _ => false
  end.

(** [SUI_ADDRESS_REGEX.test(s)], the expression being
    [/^0x[a-fA-F0-9]{64}$/]. *)
Definition SUI_ADDRESS_REGEX_test (s : string) : bool :=
  match s with
  | String c0 (String c1 rest) =>
      Ascii.eqb c0 "0" && Ascii.eqb c1 "x" && hexDigitsToEnd 64 rest
  | _ => false
  end.

Definition validateSuiAddress (address : string) : bool :=
  SUI_ADDRESS_REGEX_test address.

Definition getUsdcCoinType (network : string) : Completion string :=
  if network =? Constants.SUI_MAINNET_CAIP2 then Normal Constants.USDC_MAINNET
  else if network =? Constants.SUI_TESTNET_CAIP2
  then Normal Constants.USDC_TESTNET
  else if network =? Constants.SUI_DEVNET_CAIP2
  then Normal Constants.USDC_TESTNET
  else
    Throw (ErrorInstance
             ("No USDC coin type configured for network: " ++ network)).

(** [s.split(sep)] for a separator of one character. *)
Fixpoint splitOn (sep : ascii) (s : string) : list string :=
  match s with
  | EmptyString => [EmptyString]
  | String c rest =>
      if Ascii.eqb c sep then EmptyString :: splitOn sep rest
      else
        match splitOn sep rest with
        | piece :: others => String c piece :: others
        | [] => [String c EmptyString]
        end
  end.

Fixpoint zeros (n : nat) : string :=
  match n with
  | O => EmptyString
  | S k => String "0" (zeros k)
  end.

(** [s.padEnd(n, "0")] *)
Definition padEnd (n : nat) (s : string) : string :=
  s ++ zeros (n - String.length s).

(** [s.replace(/^0+/, "")] *)
Fixpoint stripLeadingZeros (s : string) : string :=
  match s with
  | EmptyString => EmptyString
  | String c rest => if Ascii.eqb c "0" then stripLeadingZeros rest else s
  end.

(** [s || "0"] *)
Definition orZero (s : string) : string :=
  match s with
  | EmptyString => "0"
  | _ => s
  end.

End Utils.

(** ** Numbers

    The numbers of JavaScript are floating point and are not modelled: the
    code below takes the type of numbers and the four operations it uses
    on them as given, and is embedded for every choice of them. *)

Module PriceObject.
Record t (JsValue : Type) : Type := {
  amount : string;
  asset : option string;
  extra : option (list (string * JsValue))
}.
Arguments amount {JsValue} _.
Arguments asset {JsValue} _.
Arguments extra {JsValue} _.
End PriceObject.

Module AssetAmount.
Record t (JsValue : Type) : Type := {
  amount : string;
  asset : string;
  extra : list (string * JsValue)
}.
Arguments amount {JsValue} _.
Arguments asset {JsValue} _.
Arguments extra {JsValue} _.
End AssetAmount.

Section Money.

Variable Number : Type.

(** [parseFloat(s)], [isNaN(x)], [x.toFixed(digits)], which throws a
    RangeError for some digit counts, and [x.toString()]. *)
Variable parseFloat : string -> Number.
Variable isNaN : Number -> bool.
Variable toFixed : Number -> nat -> Completion string.
Variable toString : Number -> string.

(** The values of [Record<string, unknown>]. *)
Variable JsValue : Type.

Definition convertToTokenAmount (decimalAmount : string) (decimals : nat)
  : Completion string :=
  let trimmed := Js.trim decimalAmount in
  if String.prefix "-" trimmed then
    Throw (ErrorInstance ("Negative amounts not allowed: " ++ decimalAmount))
  else
    let amount := parseFloat trimmed in
    if isNaN amount then
      Throw (ErrorInstance ("Invalid amount: " ++ decimalAmount))
    else
      cbind (toFixed amount decimals) (fun fixed =>
        let parts := Utils.splitOn "." fixed in
        let intPart := nth 0 parts EmptyString in
        let decPart := nth 1 parts EmptyString in
        let paddedDec :=
          substring 0 decimals (Utils.padEnd decimals decPart) in
        let tokenAmount :=
          Utils.orZero (Utils.stripLeadingZeros (intPart ++ paddedDec)) in
        Normal tokenAmount).

(** *** exact/server/scheme.ts *)

Inductive Money : Type :=
| MoneyString (text : string)
| MoneyNumber (value : Number).

Inductive Price : Type :=
| PriceAssetAmount (object : PriceObject.t JsValue)
| PriceMoney (money : Money).

Definition MoneyParser : Type :=
  Number -> string -> Completion (option (AssetAmount.t JsValue)).

(** [money.replace(/^\$/, "")] *)
Definition removeLeadingDollar (s : string) : string :=
  match s with
  | String c rest => if Ascii.eqb c "$" then rest else s
  | EmptyString => EmptyString
  end.

Definition upperChar (c : ascii) : ascii :=
  let n := nat_of_ascii c in
  if (97 <=? n)%nat && (n <=? 122)%nat then ascii_of_nat (n - 32) else c.

(** [word], written in upper case, starts [s] whatever the case of [s]. *)
Fixpoint startsWithIgnoringCase (word s : string) : bool :=
  match word, s with
  | EmptyString, _ => true
  | String a word', String b s' =>
      Ascii.eqb a (upperChar b) && startsWithIgnoringCase word' s'
  | String _ _, EmptyString => false
  end.

Fixpoint allWhiteSpace (s : string) : bool :=
  match s with
  | EmptyString => true
  | String c rest => Js.isStrWhiteSpaceChar c && allWhiteSpace rest
  end.

Fixpoint skipWhiteSpace (s : string) : string :=
  match s with
  | EmptyString => EmptyString
  | String c rest => if Js.isStrWhiteSpaceChar c then skipWhiteSpace rest else s
  end.

Definition currencyThenEnd (word s : string) : bool :=
  startsWithIgnoringCase word s
  && allWhiteSpace (substring (String.length word)
                      (String.length s - String.length word) s).

(** [/\s*(USDC|USD|SUI)\s*$/i] matches [s] from its first character. *)
Definition currencySuffixHere (s : string) : bool :=
  let rest := skipWhiteSpace s in
  currencyThenEnd "USDC" rest || currencyThenEnd "USD" rest
  || currencyThenEnd "SUI" rest.

(** [s.replace(/\s*(USDC|USD|SUI)\s*$/i, "")]: the leftmost match runs to
    the end of the text and is removed. *)
Fixpoint removeCurrencySuffix (s : string) : string :=
  if currencySuffixHere s then EmptyString
  else
    match s with
    | EmptyString => EmptyString
    | String c rest => String c (removeCurrencySuffix rest)
    end.

Definition parseMoneyToDecimal (money : Money) : Completion Number :=
  match money with
  | MoneyNumber value => Normal value
  | MoneyString text =>
      let cleanMoney :=
        Js.trim (removeCurrencySuffix (removeLeadingDollar text)) in
      let amount := parseFloat cleanMoney in
      if isNaN amount then
        Throw (ErrorInstance ("Invalid money format: " ++ text))
      else Normal amount
  end.

Definition defaultMoneyConversion (amount : Number) (network : string)
  : Completion (AssetAmount.t JsValue) :=
  cbind (convertToTokenAmount (toString amount) Constants.USDC_DECIMALS)
    (fun tokenAmount =>
  cbind (Utils.getUsdcCoinType network) (fun coin =>
  Normal {| AssetAmount.amount := tokenAmount;
            AssetAmount.asset := coin;
            AssetAmount.extra := [] |})).

(** The loop of [parsePrice] over [this.moneyParsers], then the default. *)
Fixpoint tryMoneyParsers (parsers : list MoneyParser) (amount : Number)
  (network : string) : Completion (AssetAmount.t JsValue) :=
  match parsers with
  | [] => defaultMoneyConversion amount network
  | parser :: rest =>
      cbind (parser amount network) (fun result =>
        match result with
        | Some assetAmount => Normal assetAmount
        | None => tryMoneyParsers rest amount network
        end)
  end.

(** [registerMoneyParser]: [this.moneyParsers.push(parser)]. *)
Definition registerMoneyParser (moneyParsers : list MoneyParser)
  (parser : MoneyParser) : list MoneyParser :=
  moneyParsers ++ [parser].

Definition parsePrice (moneyParsers : list MoneyParser) (price : Price)
  (network : string) : Completion (AssetAmount.t JsValue) :=
  match price with
  | PriceAssetAmount object =>
      if negb (Js.truthy (PriceObject.asset object)) then
        Throw (ErrorInstance
                 ("Asset address must be specified for AssetAmount on network "
                  ++ network))
      else
        Normal {| AssetAmount.amount := PriceObject.amount object;
                  AssetAmount.asset :=
                    Js.nullish (PriceObject.asset object) EmptyString;
                  AssetAmount.extra :=
                    Js.nullish (PriceObject.extra object) [] |}
  | PriceMoney money =>
      cbind (parseMoneyToDecimal money) (fun amount =>
        tryMoneyParsers moneyParsers amount network)
  end.

(** Objects as lists of entries with distinct keys, in insertion order. *)
Definition Obj : Type := list (string * JsValue).

Fixpoint objectGet (o : Obj) (key : string) : option JsValue :=
  match o with
  | [] => None
  | (k, v) :: rest => if k =? key then Some v else objectGet rest key
  end.

(** [o[key] = value]: an entry keeps its place, a new one goes last. *)
Fixpoint objectSet (o : Obj) (key : string) (value : JsValue) : Obj :=
  match o with
  | [] => [(key, value)]
  | (k, v) :: rest =>
      if k =? key then (k, value) :: rest
      else (k, v) :: objectSet rest key value
  end.

(** The spread [...source] inside an object literal that holds [target]
    so far; spreading [undefined] adds nothing. *)
Definition spreadInto (target : Obj) (source : option Obj) : Obj :=
  fold_left (fun acc entry => objectSet acc (fst entry) (snd entry))
    (Js.nullish source []) target.

(** [PaymentRequirements] with the [extra] field the server scheme adds
    to. *)
Record ServerRequirements : Type := {
  base : PaymentRequirements;
  requirementsExtra : option Obj
}.

Definition enhancePaymentRequirements (paymentRequirements : ServerRequirements)
  (supportedKindExtra : option Obj) (extensionKeys : list string)
  : ServerRequirements :=
  {| base := base paymentRequirements;
     requirementsExtra :=
       Some (spreadInto
               (spreadInto [] (requirementsExtra paymentRequirements))
               supportedKindExtra) |}.

End Money.

(** A text of decimal digits and dots. *)
Fixpoint isPlainDecimal (s : string) : bool :=
  match s with
  | EmptyString => true
  | String c rest =>
      let n := nat_of_ascii c in
      (((48 <=? n)%nat && (n <=? 57)%nat) || (n =? 46)%nat)
      && isPlainDecimal rest
  end.

(** ** index.ts: the clients of the facilitator signer *)

(** A [Map] with text keys, and the lookup of a key in a record. *)
Module JsMap.

Fixpoint get {A : Type} (m : list (string * A)) (key : string) : option A :=
  match m with
  | [] => None
  | (k, v) :: rest => if k =? key then Some v else get rest key
  end.

Fixpoint set {A : Type} (m : list (string * A)) (key : string) (value : A)
  : list (string * A) :=
  match m with
  | [] => [(key, value)]
  | (k, v) :: rest =>
      if k =? key then (k, value) :: rest else (k, v) :: set rest key value
  end.

End JsMap.

(** The names every plain object inherits from [Object.prototype]. *)
Definition objectPrototypeKeys : list string :=
  ["constructor"; "__defineGetter__"; "__defineSetter__"; "hasOwnProperty";
   "__lookupGetter__"; "__lookupSetter__"; "isPrototypeOf";
   "propertyIsEnumerable"; "toString"; "valueOf"; "__proto__";
   "toLocaleString"].

Definition isObjectPrototypeKey (key : string) : bool :=
  existsb (String.eqb key) objectPrototypeKeys.

(** What is passed for a URL: a text, or, read off a record of URLs under
    an inherited name, a member of [Object.prototype]. *)
Inductive UrlValue : Type :=
| UrlText (text : string)
| PrototypeMember (name : string).

(** [if (value)]: the empty text is falsy, functions and objects are
    truthy. *)
Definition urlTruthy (o : option UrlValue) : bool :=
  match o with
  | Some (UrlText text) => negb (text =? "")
  | Some (PrototypeMember _) => true
  | None => false
  end.

(** A [SuiClient] object: the URL it was made for and its identity. *)
Module SuiClient.
Record t : Type := { url : UrlValue; objectId : nat }.
End SuiClient.

(** [FacilitatorSuiSignerConfig] *)
Module SignerConfig.
Record t : Type := {
  rpcUrl : option string;
  rpcUrls : option (list (string * string))
}.
End SignerConfig.

Section Clients.

(** [getFullnodeUrl] of the Sui client library. *)
Variable getFullnodeUrl : string -> string.

(** The objects made so far and the [clientCache] of one signer. *)
Record Heap : Type := {
  clientCache : list (string * SuiClient.t);
  allocated : nat
}.

(** [new SuiClient({ url })] *)
Definition newSuiClient (url : UrlValue) (h : Heap)
  : Completion SuiClient.t * Heap :=
  (Normal {| SuiClient.url := url; SuiClient.objectId := allocated h |},
   {| clientCache := clientCache h; allocated := S (allocated h) |}).

Definition createSuiClient (network : string)
  (customRpcUrl : option UrlValue) (h : Heap)
  : Completion SuiClient.t * Heap :=
  if urlTruthy customRpcUrl then
    newSuiClient (Js.nullish customRpcUrl (UrlText EmptyString)) h
  else if network =? Constants.SUI_MAINNET_CAIP2
  then newSuiClient (UrlText (getFullnodeUrl "mainnet")) h
  else if network =? Constants.SUI_TESTNET_CAIP2
  then newSuiClient (UrlText (getFullnodeUrl "testnet")) h
  else if network =? Constants.SUI_DEVNET_CAIP2
  then newSuiClient (UrlText (getFullnodeUrl "devnet")) h
  else (Throw (ErrorInstance ("Unsupported Sui network: " ++ network)), h).

(** [config?.rpcUrls?.[network]], the record of URLs being a plain
    object: the entry of the record, or else the member of
    [Object.prototype] of that name. *)
Definition networkRpcUrl (config : option SignerConfig.t) (network : string)
  : option UrlValue :=
  match config with
  | Some c =>
      match SignerConfig.rpcUrls c with
      | Some urls =>
          match JsMap.get urls network with
          | Some text => Some (UrlText text)
          | None =>
              if isObjectPrototypeKey network
              then Some (PrototypeMember network)
              else None
          end
      | None => None
      end
  | None => None
  end.

(** [config?.rpcUrls?.[network] ?? config?.rpcUrl] *)
Definition chosenRpcUrl (config : option SignerConfig.t) (network : string)
  : option UrlValue :=
  match networkRpcUrl config network with
  | Some u => Some u
  | None =>
      match config with
      | Some c => option_map UrlText (SignerConfig.rpcUrl c)
      | None => None
      end
  end.

(** [getClient] of [toFacilitatorSuiSigner]. *)
Definition getClient (config : option SignerConfig.t) (network : string)
  (h : Heap) : Completion SuiClient.t * Heap :=
  match JsMap.get (clientCache h) network with
  | Some cached => (Normal cached, h)
  | None =>
      match createSuiClient network (chosenRpcUrl config network) h with
      | (Normal client, h') =>
          (Normal client,
           {| clientCache := JsMap.set (clientCache h') network client;
              allocated := allocated h' |})
      | (Throw e, h') => (Throw e, h')
      end
  end.

End Clients.

(** ** A table of numbers

    The number operations on the prices of the test suite, each number
    standing as the text [toString] gives for it. *)

Module TestEngine.

Definition Number : Type := string.

Definition parseFloat (s : string) : Number :=
  if s =? "0.10" then "0.1"
  else if s =? "0.1" then "0.1"
  else if s =? "4.02" then "4.02"
  else if s =? "1.00" then "1"
  else "NaN".

Definition isNaN (n : Number) : bool := n =? "NaN".

Definition toFixed (n : Number) (digits : nat) : Completion string :=
  if (n =? "0.1") && (digits =? 6)%nat then Normal "0.100000"
  else if (n =? "4.02") && (digits =? 6)%nat then Normal "4.020000"
  else if (n =? "1") && (digits =? 6)%nat then Normal "1.000000"
  else Throw (ErrorInstance "toFixed: not in the table").

Definition toString (n : Number) : string := n.

(** A money parser that answers in SUI for amounts written [1]. *)
Definition suiParser (amount : Number) (network : string)
  : Completion (option (AssetAmount.t string)) :=
  if amount =? "1" then
    Normal (Some {| AssetAmount.amount := "1000000000";
                    AssetAmount.asset := Constants.SUI_COIN_TYPE;
                    AssetAmount.extra := [] |})
  else Normal None.

Definition decliningParser (amount : Number) (network : string)
  : Completion (option (AssetAmount.t string)) :=
  Normal None.

Definition getFullnodeUrl (name : string) : string :=
  "https://fullnode." ++ name ++ ".sui.io:443".

End TestEngine.

(** ** Fields [verify] does not read *)

Definition withMaxTimeoutSeconds (requirements : PaymentRequirements)
  (seconds : Z) : PaymentRequirements :=
  {| Requirements.scheme := Requirements.scheme requirements;
     Requirements.network := Requirements.network requirements;
     Requirements.asset := Requirements.asset requirements;
     Requirements.amount := Requirements.amount requirements;
     Requirements.payTo := Requirements.payTo requirements;
     Requirements.maxTimeoutSeconds := seconds |}.

Definition withVersion (p : PaymentPayload) (version : Z) : PaymentPayload :=
  {| x402Version := version; accepted := accepted p; payload := payload p |}.

(** ** Signers in full

    [FacilitatorSuiSigner] above stands for the signers whose methods
    return a promise and whose errors yield a text.  A signer may do
    otherwise: a method may throw when it is called, and the value it
    raises may be one that is not an [Error] and on which [String] throws.
    The scheme is embedded once more for every such signer; on the signers
    above the two embeddings agree.  An [Error] whose [message] is not a
    text is not among the values raised here. *)

Inductive Raised : Type :=
| Rendered (error : JsThrown)
| Unrenderable (failure : JsThrown).

Inductive Settled (A : Type) : Type :=
| Fulfilled (value : A)
| Rejected (reason : Raised).

Arguments Fulfilled {A} value.
Arguments Rejected {A} reason.

Record RawPromise (A : Type) : Type := {
  rawOutcome : Settled A;
  rawSettledAt : nat
}.

Arguments rawOutcome {A} _.
Arguments rawSettledAt {A} _.

(** What calling a method gives: its result, or what it threw. *)
Inductive Called (A : Type) : Type :=
| Returned (result : A)
| ThrewWhenCalled (reason : Raised).

Arguments Returned {A} result.
Arguments ThrewWhenCalled {A} reason.

Definition RawPromise_all {A B : Type} (p1 : RawPromise A)
  (p2 : RawPromise B) : Settled (A * B) :=
  match rawOutcome p1, rawOutcome p2 with
  | Fulfilled a, Fulfilled b => Fulfilled (a, b)
  | Rejected r1, Fulfilled _ => Rejected r1
  | Fulfilled _, Rejected r2 => Rejected r2
  | Rejected r1, Rejected r2 =>
      if (rawSettledAt p2 <? rawSettledAt p1)%nat then Rejected r2
      else Rejected r1
  end.

Definition settledOf {A : Type} (c : Completion A) : Settled A :=
  match c with
  | Normal a => Fulfilled a
  | Throw e => Rejected (Rendered e)
  end.

Definition isRendered (r : Raised) : bool :=
  match r with
  | Rendered _ => true
  | Unrenderable _ => false
  end.

Definition settledRenders {A : Type} (s : Settled A) : bool :=
  match s with
  | Fulfilled _ => true
  | Rejected r => isRendered r
  end.

Definition calledRenders {A : Type} (c : Called (RawPromise A)) : bool :=
  match c with
  | Returned p => settledRenders (rawOutcome p)
  | ThrewWhenCalled r => isRendered r
  end.

Section RawScheme.

Variable Chain : Type.
Variable normalizeStructTag : string -> Completion string.

Record RawSigner : Type := {
  rawVerifySignature :
    Chain -> string -> string -> string -> Called (RawPromise string);
  rawSimulateTransaction :
    Chain -> string -> string ->
    Called (RawPromise DryRunTransactionBlockResponse);
  rawExecuteTransaction :
    Chain -> string -> string -> string -> Settled string * Chain;
  rawWaitForTransaction : Chain -> string -> string -> Settled unit
}.

(** The signers of the first embedding among these. *)
Definition plainSigner (s : FacilitatorSuiSigner Chain) : RawSigner :=
  {| rawVerifySignature := fun c tx sg net =>
       Returned
         {| rawOutcome := settledOf (outcome (verifySignature s c tx sg net));
            rawSettledAt := settledAt (verifySignature s c tx sg net) |};
     rawSimulateTransaction := fun c tx net =>
       Returned
         {| rawOutcome := settledOf (outcome (simulateTransaction s c tx net));
            rawSettledAt := settledAt (simulateTransaction s c tx net) |};
     rawExecuteTransaction := fun c tx sg net =>
       (settledOf (fst (executeTransaction s c tx sg net)),
        snd (executeTransaction s c tx sg net));
     rawWaitForTransaction := fun c digest net =>
       settledOf (waitForTransaction s c digest net) |}.

(** Every value the signer raises yields a text. *)
Definition rendersItsErrors (s : RawSigner) : Prop :=
  (forall c tx sg net,
      calledRenders (rawVerifySignature s c tx sg net) = true)
  /\ (forall c tx net,
         calledRenders (rawSimulateTransaction s c tx net) = true)
  /\ (forall c tx sg net,
         settledRenders (fst (rawExecuteTransaction s c tx sg net)) = true)
  /\ (forall c digest net,
         settledRenders (rawWaitForTransaction s c digest net) = true).

Definition RM (A : Type) : Type := World Chain -> Settled A * World Chain.

Definition rret {A : Type} (a : A) : RM A := fun w => (Fulfilled a, w).

Definition rbind {A B : Type} (m : RM A) (k : A -> RM B) : RM B :=
  fun w =>
    match m w with
    | (Fulfilled a, w') => k a w'
    | (Rejected r, w') => (Rejected r, w')
    end.

Definition rreject {A : Type} (r : Raised) : RM A :=
  fun w => (Rejected r, w).

Definition rlift {A : Type} (c : Completion A) : RM A :=
  fun w => (settledOf c, w).

Definition rtryCatch {A : Type} (body : RM A) (handler : Raised -> RM A)
  : RM A :=
  fun w =>
    match body w with
    | (Fulfilled a, w') => (Fulfilled a, w')
    | (Rejected r, w') => handler r w'
    end.

Variable signer : RawSigner.

Definition calledOf {A : Type} (c : Called A) : Settled A :=
  match c with
  | Returned a => Fulfilled a
  | ThrewWhenCalled r => Rejected r
  end.

Definition raw_verifySignature (transactionBytes sig net : string)
  : RM (RawPromise string) :=
  fun w =>
    (calledOf (rawVerifySignature signer (chain w) transactionBytes sig net),
     {| chain := chain w;
        calls := calls w ++ [CallVerifySignature transactionBytes sig net] |}).

Definition raw_simulateTransaction (transactionBytes net : string)
  : RM (RawPromise DryRunTransactionBlockResponse) :=
  fun w =>
    (calledOf (rawSimulateTransaction signer (chain w) transactionBytes net),
     {| chain := chain w;
        calls := calls w ++ [CallSimulateTransaction transactionBytes net] |}).

Definition raw_executeTransaction (tx sig net : string) : RM string :=
  fun w =>
    (fst (rawExecuteTransaction signer (chain w) tx sig net),
     {| chain := snd (rawExecuteTransaction signer (chain w) tx sig net);
        calls := calls w ++ [CallExecuteTransaction tx sig net] |}).

Definition raw_waitForTransaction (digest net : string) : RM unit :=
  fun w =>
    (rawWaitForTransaction signer (chain w) digest net,
     {| chain := chain w;
        calls := calls w ++ [CallWaitForTransaction digest net] |}).

(** The [catch] block of [verify]: the text of the error is taken, which
    throws for a value without one, and then classified. *)
Definition rawClassify (r : Raised) : RM (VerifyResponse.t + string) :=
  match r with
  | Rendered e => rret (inl (classifyError e))
  | Unrenderable failure => rreject (Rendered failure)
  end.

Definition rawVerify (p : PaymentPayload)
  (requirements : PaymentRequirements) : RM VerifyResponse.t :=
  if negb (Accepted.scheme (accepted p) =? "exact")
     || negb (Requirements.scheme requirements =? "exact")
  then rret (invalid "unsupported_scheme" None None)
  else if negb (Accepted.network (accepted p)
                =? Requirements.network requirements)
  then rret (invalid "network_mismatch" None None)
  else
    let tx := payloadTransaction p in
    let sg := payloadSignature p in
    if negb (Js.truthy tx) || negb (Js.truthy sg)
    then rret (invalid
           "invalid_exact_sui_payload_transaction_could_not_be_decoded"
           None None)
    else
      rbind
        (rtryCatch
           (rbind (raw_verifySignature (payloadText tx) (payloadText sg)
                     (Requirements.network requirements)) (fun p1 =>
            rbind (raw_simulateTransaction (payloadText tx)
                     (Requirements.network requirements)) (fun p2 =>
            rbind (fun w => (RawPromise_all p1 p2, w)) (fun joined =>
            rlift (checkDryRun normalizeStructTag requirements
                     (fst joined) (snd joined))))))
           rawClassify)
        (fun r =>
           match r with
           | inl response => rret response
           | inr payer => rret (validResponse payer)
           end).

(** The [catch] block of [settle]. *)
Definition rawTransactionFailed (p : PaymentPayload)
  (verification : VerifyResponse.t) (r : Raised) : RM SettleResponse.t :=
  match r with
  | Rendered e =>
      rret {| SettleResponse.success := false;
              SettleResponse.errorReason := Some "transaction_failed";
              SettleResponse.errorMessage := Some (messageOf e);
              SettleResponse.transaction := "";
              SettleResponse.network := Accepted.network (accepted p);
              SettleResponse.payer := VerifyResponse.payer verification |}
  | Unrenderable failure => rreject (Rendered failure)
  end.

Definition rawSettle (p : PaymentPayload)
  (requirements : PaymentRequirements) : RM SettleResponse.t :=
  rbind (rawVerify p requirements) (fun verification =>
    if negb (VerifyResponse.isValid verification) then
      rret {| SettleResponse.success := false;
              SettleResponse.network := Accepted.network (accepted p);
              SettleResponse.transaction := "";
              SettleResponse.errorReason :=
                Some (Js.nullish (VerifyResponse.invalidReason verification)
                        "verification_failed");
              SettleResponse.errorMessage := None;
              SettleResponse.payer := VerifyResponse.payer verification |}
    else
      let tx := payloadTransaction p in
      let sg := payloadSignature p in
      rtryCatch
        (rbind (raw_executeTransaction (payloadText tx) (payloadText sg)
                  (Requirements.network requirements)) (fun digest =>
         rbind (raw_waitForTransaction digest
                  (Requirements.network requirements)) (fun _ =>
         rret {| SettleResponse.success := true;
                 SettleResponse.transaction := digest;
                 SettleResponse.network := Accepted.network (accepted p);
                 SettleResponse.errorReason := None;
                 SettleResponse.errorMessage := None;
                 SettleResponse.payer :=
                   VerifyResponse.payer verification |})))
        (rawTransactionFailed p verification)).

End RawScheme.

Arguments rawVerifySignature {Chain} _ _ _ _ _.
Arguments rawSimulateTransaction {Chain} _ _ _ _.
Arguments rawExecuteTransaction {Chain} _ _ _ _ _.
Arguments rawWaitForTransaction {Chain} _ _ _ _.
Arguments plainSigner {Chain} s.
Arguments rendersItsErrors {Chain} s.
Arguments rawVerify {Chain} normalizeStructTag signer p requirements _.
Arguments rawSettle {Chain} normalizeStructTag signer p requirements _.

Module RawMock.

(** What [String] throws on an object without prototype. *)
Definition noPrimitive : JsThrown :=
  ErrorInstance "Cannot convert object to primitive value".

Definition promised {A : Type} (s : Settled A) : Called (RawPromise A) :=
  Returned {| rawOutcome := s; rawSettledAt := 1 |}.

Definition signer (sig : Called (RawPromise string))
  (sim : Called (RawPromise DryRunTransactionBlockResponse))
  (exec : Settled string) (wait : Settled unit) : RawSigner Mock.Chain :=
  {| rawVerifySignature := fun _ _ _ _ => sig;
     rawSimulateTransaction := fun _ _ _ => sim;
     rawExecuteTransaction := fun c _ _ _ =>
       (exec, match exec with Fulfilled d => d :: c | Rejected _ => c end);
     rawWaitForTransaction := fun _ _ _ => wait |}.

Definition payingDryRun : DryRunTransactionBlockResponse :=
  Mock.createSuccessfulDryRun
    [Mock.change (AddressOwner Mock.PAYTO) Mock.USDC "100000"].

End RawMock.

(** ** The embedding at work *)

Example BigInt_decimal : Js.BigInt "100000" = Normal 100000%Z.
Proof. reflexivity. Qed.

Example BigInt_negative : Js.BigInt " -42 " = Normal (-42)%Z.
Proof. reflexivity. Qed.

Example BigInt_hex : Js.BigInt "0x1f" = Normal 31%Z.
Proof. reflexivity. Qed.

Example BigInt_empty : Js.BigInt "" = Normal 0%Z.
Proof. reflexivity. Qed.

Example BigInt_fraction :
  Js.BigInt "1.5" = Throw (ErrorInstance "Cannot convert 1.5 to a BigInt").
Proof. reflexivity. Qed.

Example includes_inside :
  Js.includes "Invalid signature" "Error: Invalid signature for tx" = true.
Proof. reflexivity. Qed.

Example normalizeStructTag_short :
  SuiUtils.normalizeStructTag "0x2::sui::SUI"
  = Normal
      "0x0000000000000000000000000000000000000000000000000000000000000002::sui::SUI".
Proof. reflexivity. Qed.

(** The scenarios of the test suite. *)

Example verify_valid_payment :
  Mock.run_verify (Mock.paying "100000")
    (Mock.createMockPayload "exact" Mock.MAINNET)
    (Mock.createMockRequirements Mock.USDC "100000" Mock.PAYTO)
  = Normal {| VerifyResponse.isValid := true;
              VerifyResponse.invalidReason := None;
              VerifyResponse.invalidMessage := None;
              VerifyResponse.payer := Some Mock.PAYER |}.
Proof. reflexivity. Qed.

Example verify_underpayment :
  Mock.run_verify (Mock.paying "50000")
    (Mock.createMockPayload "exact" Mock.MAINNET)
    (Mock.createMockRequirements Mock.USDC "100000" Mock.PAYTO)
  = Normal (invalid "invalid_exact_sui_payload_amount_insufficient"
              None (Some Mock.PAYER)).
Proof. reflexivity. Qed.

Example verify_unsupported_scheme :
  Mock.run_verify (Mock.paying "100000")
    (Mock.createMockPayload "other" Mock.MAINNET)
    (Mock.createMockRequirements Mock.USDC "100000" Mock.PAYTO)
  = Normal (invalid "unsupported_scheme" None None).
Proof. reflexivity. Qed.

Example verify_dry_run_failure :
  Mock.run_verify
    (Mock.signer (Mock.resolved Mock.PAYER)
       (Mock.resolved (Mock.createFailedDryRun "InsufficientCoinBalance"))
       (Normal "d") (Normal tt))
    (Mock.createMockPayload "exact" Mock.MAINNET)
    (Mock.createMockRequirements Mock.USDC "100000" Mock.PAYTO)
  = Normal (invalid "invalid_exact_sui_payload_transaction_dry_run_failed"
              (Some "InsufficientCoinBalance") (Some Mock.PAYER)).
Proof. reflexivity. Qed.

Example verify_invalid_signature :
  Mock.run_verify
    (Mock.signer (Mock.rejected 1 "Invalid signature")
       (Mock.resolved (Mock.createSuccessfulDryRun []))
       (Normal "d") (Normal tt))
    (Mock.createMockPayload "exact" Mock.MAINNET)
    (Mock.createMockRequirements Mock.USDC "100000" Mock.PAYTO)
  = Normal (invalid
      "invalid_exact_sui_payload_transaction_signature_verification_failed"
      (Some "Invalid signature") None).
Proof. reflexivity. Qed.

Example verify_wrong_coin :
  Mock.run_verify
    (Mock.signer (Mock.resolved Mock.PAYER)
       (Mock.resolved (Mock.createSuccessfulDryRun
          [Mock.change (AddressOwner Mock.PAYTO) Mock.SUI "100000"]))
       (Normal "d") (Normal tt))
    (Mock.createMockPayload "exact" Mock.MAINNET)
    (Mock.createMockRequirements Mock.USDC "100000" Mock.PAYTO)
  = Normal (invalid "invalid_exact_sui_payload_asset_mismatch"
              None (Some Mock.PAYER)).
Proof. reflexivity. Qed.

Example settle_valid_payment :
  Mock.run_settle (Mock.paying "100000")
    (Mock.createMockPayload "exact" Mock.MAINNET)
    (Mock.createMockRequirements Mock.USDC "100000" Mock.PAYTO)
  = (Normal {| SettleResponse.success := true;
               SettleResponse.errorReason := None;
               SettleResponse.errorMessage := None;
               SettleResponse.transaction := "mock-digest-123";
               SettleResponse.network := Mock.MAINNET;
               SettleResponse.payer := Some Mock.PAYER |},
     {| chain := ["mock-digest-123"];
        calls :=
          [CallVerifySignature "mock-transaction-base64"
             "mock-signature-base64" Mock.MAINNET;
           CallSimulateTransaction "mock-transaction-base64" Mock.MAINNET;
           CallExecuteTransaction "mock-transaction-base64"
             "mock-signature-base64" Mock.MAINNET;
           CallWaitForTransaction "mock-digest-123" Mock.MAINNET] |}).
Proof. reflexivity. Qed.

(** ** How [verify] and [settle] run *)

Section Protocol.

Variable Chain : Type.
Variable normalizeStructTag : string -> Completion string.
Variable signer : FacilitatorSuiSigner Chain.


Implicit Types (p : PaymentPayload) (r : PaymentRequirements)
  (w : World Chain).

Lemma preChecksPass_inv p r :
  preChecksPass p r = true ->
  (Accepted.scheme (accepted p) =? "exact") = true
  /\ (Requirements.scheme r =? "exact") = true
  /\ (Accepted.network (accepted p) =? Requirements.network r) = true
  /\ Js.truthy (payloadTransaction p) = true
  /\ Js.truthy (payloadSignature p) = true.
Proof.
  unfold preChecksPass. intros H.
  repeat (apply andb_prop in H; destruct H as [H ?]). auto.
Qed.

(** Past the pre-checks, [verify] makes the two read calls, joins them,
    and answers with the verdict of its [try] block. *)
Lemma verify_passed p r w :
  preChecksPass p r = true ->
  verify normalizeStructTag signer p r w
  = (Normal (verdict
       (cbind (outcome (Promise_all (signatureCall signer p r w)
                          (simulationCall signer p r w)))
          (fun joined => checkDryRun normalizeStructTag r (fst joined) (snd joined)))),
     withCalls w (readCalls p r)).
Proof.
  intros H. apply preChecksPass_inv in H.
  destruct H as (H1 & H2 & H3 & H4 & H5).
  unfold verify. rewrite H1, H2, H3, H4, H5. cbn [negb orb].
  unfold bind, tryCatch, await, lift, ret, signer_verifySignature,
    signer_simulateTransaction, signatureCall, simulationCall, withCalls,
    readCalls, logged.
  cbn [chain calls].
  rewrite <- app_assoc. cbn [app].
  destruct (outcome (Promise_all _ _)) as [[payer dry]|e]; cbn [cbind fst snd].
  - destruct (checkDryRun normalizeStructTag r payer dry) as [[response|payer']|e];
      reflexivity.
  - reflexivity.
Qed.

(** Short of the pre-checks, [verify] answers at once, with no call. *)
Lemma verify_stopped p r w :
  preChecksPass p r = false ->
  exists reason,
    verify normalizeStructTag signer p r w = (Normal (invalid reason None None), w).
Proof.
  unfold preChecksPass, verify. intros H.
  destruct (Accepted.scheme (accepted p) =? "exact");
    destruct (Requirements.scheme r =? "exact");
    cbn [negb orb andb] in *; try (eexists; reflexivity).
  destruct (Accepted.network (accepted p) =? Requirements.network r);
    cbn [negb andb] in *; try (eexists; reflexivity).
  destruct (Js.truthy (payloadTransaction p));
    destruct (Js.truthy (payloadSignature p));
    cbn [negb orb andb] in *; try discriminate; eexists; reflexivity.
Qed.

(** Every response built by the [try] block is a rejection that names
    the recovered payer, and falling through keeps that payer. *)
Lemma checkDryRun_shape r P dry x :
  checkDryRun normalizeStructTag r P dry = Normal x ->
  match x with
  | inl response =>
      exists reason message, response = invalid reason message (Some P)
  | inr payer => payer = P
  end.
Proof.
  unfold checkDryRun.
  destruct (negb (isSuccess (effectsStatus dry))).
  - intros H. injection H as <-. eauto.
  - destruct (Js.find _ _) as [[change|]|e]; cbn [cbind].
    + destruct (Js.BigInt (amount change)) as [received|e]; cbn [cbind];
        [|discriminate].
      destruct (Js.BigInt (Requirements.amount r)) as [required|e];
        cbn [cbind]; [|discriminate].
      destruct (received <? required)%Z; intros H; injection H as <-; eauto.
    + destruct (List.find _ _); intros H; injection H as <-; eauto.
    + discriminate.
Qed.

Lemma classifyError_shape e :
  exists reason,
    classifyError e = invalid reason (Some (messageOf e)) None.
Proof.
  unfold classifyError. destruct (_ || _); eauto.
Qed.

(** [verify] always returns; it leaves the chain alone, and the calls it
    adds to the log are reads. *)
Lemma verify_returns p r w :
  exists vr new,
    verify normalizeStructTag signer p r w = (Normal vr, withCalls w new)
    /\ forallb (fun c => negb (isBroadcast c)) new = true
    /\ (VerifyResponse.isValid vr = false ->
        exists reason, VerifyResponse.invalidReason vr = Some reason).
Proof.
  destruct (preChecksPass p r) eqn:Hpre.
  - rewrite (verify_passed p r w Hpre).
    eexists _, _. split; [reflexivity|]. split; [reflexivity|].
    destruct (outcome (Promise_all _ _)) as [[P dry]|e]; cbn [cbind fst snd].
    + destruct (checkDryRun normalizeStructTag r P dry) as [[response|payer]|e] eqn:Hc;
        cbn [verdict].
      * apply checkDryRun_shape in Hc. destruct Hc as (reason & m & ->).
        cbn. eauto.
      * discriminate.
      * destruct (classifyError_shape e) as [reason ->]. cbn. eauto.
    + cbn [verdict]. destruct (classifyError_shape e) as [reason ->].
      cbn. eauto.
  - destruct (verify_stopped p r w Hpre) as [reason H].
    exists (invalid reason None None), [].
    split.
    + rewrite H. unfold withCalls. rewrite app_nil_r. destruct w; reflexivity.
    + split; [reflexivity|]. cbn. eauto.
Qed.

Ltac enter_settle H :=
  unfold settle, bind at 1; rewrite H; cbn [negb].

Ltac run_broadcast :=
  unfold tryCatch, bind, signer_executeTransaction,
    signer_waitForTransaction, ret, logged, broadcastCall in *;
  cbn [chain calls fst snd] in *.

(** ** Settlement after a rejected verification *)

(** C1. Whenever [verify] answers [isValid = false], [settle] answers
    [success = false] with the [invalidReason] of that verification as
    [errorReason] (or [verification_failed] when there is none), an empty
    [transaction] and the payer the verification recovered; the world it
    leaves is the one the verification left: the chain is unchanged and
    no broadcast is among the calls it added. *)
Theorem settle_refuses_what_verify_rejects p r w vr w1 :
  verify normalizeStructTag signer p r w = (Normal vr, w1) ->
  VerifyResponse.isValid vr = false ->
  settle normalizeStructTag signer p r w
  = (Normal
       {| SettleResponse.success := false;
          SettleResponse.errorReason :=
            Some (Js.nullish (VerifyResponse.invalidReason vr)
                    "verification_failed");
          SettleResponse.errorMessage := None;
          SettleResponse.transaction := "";
          SettleResponse.network := Accepted.network (accepted p);
          SettleResponse.payer := VerifyResponse.payer vr |},
     w1)
  /\ chain w1 = chain w
  /\ exists new,
       calls w1 = (calls w ++ new)%list
       /\ forallb (fun c => negb (isBroadcast c)) new = true.
Proof.
  intros Hv Hinvalid. split.
  - enter_settle Hv. rewrite Hinvalid. reflexivity.
  - destruct (verify_returns p r w) as (vr' & new & Hv' & Hreads & _).
    rewrite Hv in Hv'. injection Hv' as _ ->.
    split; [reflexivity|]. exists new. split; [reflexivity|exact Hreads].
Qed.

(** ** Failures of the broadcast *)


(** ** Invariants of the responses *)

(** C8. Provided the signer recovers only non-empty identities and
    broadcasts only with non-empty digests: a [VerifyResponse] with
    [isValid = true] has a non-empty payer, a [SettleResponse] with
    [success = true] has a non-empty [transaction], and a
    [SettleResponse] with [success = false] has [transaction = ""]. *)
Theorem response_invariants p r w :
  (forall c tx sg net P,
      outcome (verifySignature signer c tx sg net) = Normal P -> P <> "") ->
  (forall c tx sg net digest c',
      executeTransaction signer c tx sg net = (Normal digest, c') ->
      digest <> "") ->
  exists vr w1 sr w2,
    verify normalizeStructTag signer p r w = (Normal vr, w1)
    /\ settle normalizeStructTag signer p r w = (Normal sr, w2)
    /\ (VerifyResponse.isValid vr = true ->
        exists P, VerifyResponse.payer vr = Some P /\ P <> "")
    /\ (SettleResponse.success sr = true ->
        SettleResponse.transaction sr <> "")
    /\ (SettleResponse.success sr = false ->
        SettleResponse.transaction sr = "").
Proof.
  intros Hsig Hexec.
  assert (Hpayer : forall vr w1,
             verify normalizeStructTag signer p r w = (Normal vr, w1) ->
             VerifyResponse.isValid vr = true ->
             exists P, VerifyResponse.payer vr = Some P /\ P <> "").
  { intros vr w1 Hv Hvalid.
    destruct (preChecksPass p r) eqn:Hpre.
    - rewrite (verify_passed p r w Hpre) in Hv. injection Hv as <- _.
      unfold Promise_all in Hvalid |- *.
      destruct (outcome (signatureCall signer p r w)) as [P|e1] eqn:HP;
        destruct (outcome (simulationCall signer p r w)) as [dry|e2];
        try destruct (_ <? _)%nat;
        cbn [outcome cbind fst snd verdict] in *;
        try (destruct (classifyError_shape e1) as [? Hc];
             rewrite Hc in Hvalid; discriminate);
        try (destruct (classifyError_shape e2) as [? Hc];
             rewrite Hc in Hvalid; discriminate).
      destruct (checkDryRun normalizeStructTag r P dry) as [[response|payer]|e] eqn:Hc;
        cbn [verdict] in *.
      + apply checkDryRun_shape in Hc. destruct Hc as (? & ? & ->).
        discriminate.
      + apply checkDryRun_shape in Hc. subst payer.
        exists P. split; [reflexivity|]. eapply Hsig. exact HP.
      + destruct (classifyError_shape e) as [? Hc'].
        rewrite Hc' in Hvalid. discriminate.
    - destruct (verify_stopped p r w Hpre) as [reason H].
      rewrite H in Hv. injection Hv as <- _. discriminate. }
  destruct (verify_returns p r w) as (vr & new & Hv & _ & _).
  exists vr, (withCalls w new).
  enter_settle Hv.
  destruct (VerifyResponse.isValid vr) eqn:Hvalid; cbn [negb].
  - run_broadcast.
    destruct (executeTransaction signer _ _ _ _) as [[digest|e] c'] eqn:He;
      cbn [chain calls].
    + apply Hexec in He.
      destruct (waitForTransaction signer c' digest _) as [[]|e];
        eexists _, _; (split; [reflexivity|]); (split; [reflexivity|]);
        cbn; repeat split; eauto; discriminate.
    + eexists _, _; (split; [reflexivity|]); (split; [reflexivity|]);
        cbn; repeat split; eauto; discriminate.
  - eexists _, _; (split; [reflexivity|]); (split; [reflexivity|]);
      cbn; repeat split; eauto; discriminate.
Qed.

(** ** The checks on the simulation *)

Lemma Promise_all_fulfilled {A B : Type} (p1 : Promise A) (p2 : Promise B)
  a b :
  outcome p1 = Normal a -> outcome p2 = Normal b ->
  outcome (Promise_all p1 p2) = Normal (a, b).
Proof.
  intros H1 H2. unfold Promise_all. rewrite H1, H2. reflexivity.
Qed.

Lemma verify_checked p r w P dry :
  preChecksPass p r = true ->
  outcome (signatureCall signer p r w) = Normal P ->
  outcome (simulationCall signer p r w) = Normal dry ->
  verify normalizeStructTag signer p r w
  = (Normal (verdict (checkDryRun normalizeStructTag r P dry)), withCalls w (readCalls p r)).
Proof.
  intros Hpre HP Hdry. rewrite (verify_passed p r w Hpre).
  rewrite (Promise_all_fulfilled _ _ _ _ HP Hdry). reflexivity.
Qed.



(** An address-owned change passes the recipient test exactly when its
    address is [payTo], letter for letter. *)
Lemma isRecipientChange_address r bc a :
  owner bc = AddressOwner a ->
  isRecipientChange r bc = true <-> a = Requirements.payTo r.
Proof.
  unfold isRecipientChange. intros ->. cbn [extractAddress].
  apply String.eqb_eq.
Qed.

(** For a recipient that is not the empty text, only changes owned by
    that address pass the recipient test. *)
Lemma isRecipientChange_owner r bc :
  Requirements.payTo r <> "" ->
  isRecipientChange r bc = true <->
  owner bc = AddressOwner (Requirements.payTo r).
Proof.
  unfold isRecipientChange. intros Hne.
  destruct (owner bc) as [a| | |]; cbn [extractAddress];
    rewrite String.eqb_eq; split; intros H; try congruence;
    try discriminate.
Qed.

Lemma find_asset_none r changes :
  (forall bc, In bc changes ->
              isRecipientChange r bc = true ->
              coinTypesEqual normalizeStructTag (coinType bc)
                (Requirements.asset r) = Normal false) ->
  Js.find (isRecipientAssetChange normalizeStructTag r) changes
  = Normal None.
Proof.
  induction changes as [|bc rest IH]; intros H; [reflexivity|].
  cbn [Js.find]. unfold isRecipientAssetChange at 1.
  destruct (isRecipientChange r bc) eqn:Hr.
  - rewrite (H bc (or_introl eq_refl) Hr).
    apply IH. intros bc' Hin. apply H. right. exact Hin.
  - apply IH. intros bc' Hin. apply H. right. exact Hin.
Qed.

Lemma find_recipient_none r changes :
  (forall bc, In bc changes -> isRecipientChange r bc = false) ->
  List.find (isRecipientChange r) changes = None.
Proof.
  induction changes as [|bc rest IH]; intros H; [reflexivity|].
  cbn [List.find]. rewrite (H bc (or_introl eq_refl)).
  apply IH. intros bc' Hin. apply H. right. exact Hin.
Qed.

Lemma find_recipient_some r changes bc :
  In bc changes -> isRecipientChange r bc = true ->
  exists found, List.find (isRecipientChange r) changes = Some found.
Proof.
  induction changes as [|x rest IH]; intros Hin Hr; [destruct Hin|].
  cbn [List.find]. destruct (isRecipientChange r x) eqn:Hx; [eauto|].
  destruct Hin as [->|Hin]; [congruence|]. apply IH; assumption.
Qed.

(** C2, as the code has it.  Past the pre-checks, with the signer
    recovered and the dry run a success, and for a recipient that is not
    the empty text: when no change is owned by the address [payTo] the
    answer is [recipient_mismatch]; when some change is owned by [payTo]
    and the asset comparison answers no for each of them, the answer is
    [asset_mismatch]. *)
Theorem mismatch_is_told_apart p r w P dry :
  preChecksPass p r = true ->
  outcome (signatureCall signer p r w) = Normal P ->
  outcome (simulationCall signer p r w) = Normal dry ->
  isSuccess (effectsStatus dry) = true ->
  Requirements.payTo r <> "" ->
  ((forall bc, In bc (Js.nullish (balanceChanges dry) []) ->
               owner bc <> AddressOwner (Requirements.payTo r)) ->
   fst (verify normalizeStructTag signer p r w)
   = Normal (invalid "invalid_exact_sui_payload_recipient_mismatch"
               None (Some P)))
  /\ ((exists bc, In bc (Js.nullish (balanceChanges dry) [])
                  /\ owner bc = AddressOwner (Requirements.payTo r)) ->
      (forall bc, In bc (Js.nullish (balanceChanges dry) []) ->
                  owner bc = AddressOwner (Requirements.payTo r) ->
                  coinTypesEqual normalizeStructTag (coinType bc)
                    (Requirements.asset r) = Normal false) ->
      fst (verify normalizeStructTag signer p r w)
      = Normal (invalid "invalid_exact_sui_payload_asset_mismatch"
                  None (Some P))).
Proof.
  intros Hpre HP Hdry Hok Hne.
  rewrite (verify_checked p r w P dry Hpre HP Hdry). cbn [fst].
  unfold checkDryRun. rewrite Hok. cbn [negb].
  split.
  - intros Hnone.
    assert (Hfalse : forall bc,
               In bc (Js.nullish (balanceChanges dry) []) ->
               isRecipientChange r bc = false).
    { intros bc Hin. destruct (isRecipientChange r bc) eqn:Hr; [|reflexivity].
      apply (isRecipientChange_owner r bc Hne) in Hr.
      destruct (Hnone bc Hin Hr). }
    rewrite find_asset_none.
    + cbn [cbind]. rewrite (find_recipient_none _ _ Hfalse). reflexivity.
    + intros bc Hin Hr. rewrite (Hfalse bc Hin) in Hr. discriminate.
  - intros (bc & Hin & Hown) Hassets.
    rewrite find_asset_none.
    + cbn [cbind].
      destruct (find_recipient_some r _ bc Hin) as [found ->];
        [|reflexivity].
      apply (isRecipientChange_owner r bc Hne). exact Hown.
    + intros bc' Hin' Hr. apply Hassets; [exact Hin'|].
      apply (isRecipientChange_owner r bc' Hne). exact Hr.
Qed.

(** ** The payer and the failures of the join *)



(** ** Identifiers in normal form *)

Lemma find_ext {A : Type} (f g : A -> Completion bool) (l : list A) :
  (forall x, f x = g x) -> Js.find f l = Js.find g l.
Proof.
  intros H. induction l as [|x rest IH]; [reflexivity|].
  cbn [Js.find]. rewrite H, IH. reflexivity.
Qed.

Lemma coinTypesEqual_normal a a' b b' :
  normalizeStructTag a = normalizeStructTag a' ->
  normalizeStructTag b = normalizeStructTag b' ->
  coinTypesEqual normalizeStructTag a b
  = coinTypesEqual normalizeStructTag a' b'.
Proof.
  unfold coinTypesEqual. intros -> ->. reflexivity.
Qed.

Lemma checkDryRun_withAsset r a' P dry :
  normalizeStructTag a' = normalizeStructTag (Requirements.asset r) ->
  checkDryRun normalizeStructTag (withAsset r a') P dry = checkDryRun normalizeStructTag r P dry.
Proof.
  intros Ha. unfold checkDryRun.
  rewrite (find_ext (isRecipientAssetChange normalizeStructTag
                       (withAsset r a'))
             (isRecipientAssetChange normalizeStructTag r)).
  - reflexivity.
  - intros bc. unfold isRecipientAssetChange.
    change (isRecipientChange (withAsset r a') bc)
      with (isRecipientChange r bc).
    destruct (isRecipientChange r bc); [|reflexivity].
    apply coinTypesEqual_normal; [reflexivity|exact Ha].
Qed.

(** C6, as the code has it.  Asset identifiers are compared in the form
    [normalizeStructTag] gives them: [coinTypesEqual] answers whether the
    two normal forms are the same text, so two identifiers with the same
    normal form are equal to it, a change owned by [payTo] whose coin type
    has the normal form of the required asset is a match of [verify], and
    [verify] answers the same for a required asset written in another way.
    The recipient is not put in a normal form: an address-owned change
    passes the recipient test exactly when its address and [payTo] are the
    same text. *)
Theorem assets_are_compared_in_normal_form :
  (forall a b na nb,
      normalizeStructTag a = Normal na ->
      normalizeStructTag b = Normal nb ->
      coinTypesEqual normalizeStructTag a b = Normal (na =? nb))
  /\ (forall a b n,
        normalizeStructTag a = Normal n ->
        normalizeStructTag b = Normal n ->
        coinTypesEqual normalizeStructTag a b = Normal true)
  /\ (forall r bc n,
        owner bc = AddressOwner (Requirements.payTo r) ->
        normalizeStructTag (coinType bc) = Normal n ->
        normalizeStructTag (Requirements.asset r) = Normal n ->
        isRecipientAssetChange normalizeStructTag r bc = Normal true)
  /\ (forall a a' b b',
        normalizeStructTag a = normalizeStructTag a' ->
        normalizeStructTag b = normalizeStructTag b' ->
        coinTypesEqual normalizeStructTag a b
        = coinTypesEqual normalizeStructTag a' b')
  /\ (forall p r w a',
        normalizeStructTag a' = normalizeStructTag (Requirements.asset r) ->
        verify normalizeStructTag signer p (withAsset r a') w
        = verify normalizeStructTag signer p r w)
  /\ (forall r bc a,
        owner bc = AddressOwner a ->
        isRecipientChange r bc = true <-> a = Requirements.payTo r).
Proof.
  assert (Hforms : forall a b na nb,
             normalizeStructTag a = Normal na ->
             normalizeStructTag b = Normal nb ->
             coinTypesEqual normalizeStructTag a b = Normal (na =? nb)).
  { intros a b na nb Ha Hb. unfold coinTypesEqual. rewrite Ha, Hb.
    reflexivity. }
  assert (Hsame : forall a b n,
             normalizeStructTag a = Normal n ->
             normalizeStructTag b = Normal n ->
             coinTypesEqual normalizeStructTag a b = Normal true).
  { intros a b n Ha Hb. rewrite (Hforms a b n n Ha Hb), String.eqb_refl.
    reflexivity. }
  split; [exact Hforms|]. split; [exact Hsame|].
  split.
  { intros r bc n Hown Hc Ha. unfold isRecipientAssetChange.
    assert (Hr : isRecipientChange r bc = true)
      by (apply (isRecipientChange_address r bc _ Hown); reflexivity).
    rewrite Hr. exact (Hsame _ _ n Hc Ha). }
  split; [exact coinTypesEqual_normal|].
  split; [|intros r bc a; apply isRecipientChange_address].
  intros p r w a' Ha.
  destruct (preChecksPass p r) eqn:Hpre.
  - rewrite (verify_passed p r w Hpre).
    rewrite (verify_passed p (withAsset r a') w Hpre).
    change (signatureCall signer p (withAsset r a') w)
      with (signatureCall signer p r w).
    change (simulationCall signer p (withAsset r a') w)
      with (simulationCall signer p r w).
    change (readCalls p (withAsset r a')) with (readCalls p r).
    destruct (outcome (Promise_all _ _)) as [[P dry]|e]; [|reflexivity].
    cbn [cbind fst snd]. rewrite (checkDryRun_withAsset r a' P dry Ha).
    reflexivity.
  - unfold preChecksPass in Hpre. unfold verify.
    change (Requirements.scheme (withAsset r a'))
      with (Requirements.scheme r).
    change (Requirements.network (withAsset r a'))
      with (Requirements.network r).
    destruct (Accepted.scheme (accepted p) =? "exact");
      destruct (Requirements.scheme r =? "exact");
      cbn [negb orb andb] in *; try reflexivity.
    destruct (Accepted.network (accepted p) =? Requirements.network r);
      cbn [negb andb] in *; try reflexivity.
    destruct (Js.truthy (payloadTransaction p));
      destruct (Js.truthy (payloadSignature p));
      cbn [negb orb andb] in *; try discriminate; reflexivity.
Qed.

End Protocol.

(** ** The protocol on concrete runs *)

(** C1 at work: a forged signature is refused by [settle] without any
    broadcast. *)
Lemma settle_refuses_forged_signature :
  settle SuiUtils.normalizeStructTag
    (Mock.signer (Mock.rejected 1 "Invalid signature")
       (Mock.resolved (Mock.createSuccessfulDryRun []))
       (Normal "mock-digest-123") (Normal tt))
    Mock.thePayload Mock.theRequirements Mock.start
  = (Normal
       {| SettleResponse.success := false;
          SettleResponse.errorReason :=
            Some
              "invalid_exact_sui_payload_transaction_signature_verification_failed";
          SettleResponse.errorMessage := None;
          SettleResponse.transaction := "";
          SettleResponse.network := Mock.MAINNET;
          SettleResponse.payer := None |},
     Mock.afterReads)
  /\ chain Mock.afterReads = chain Mock.start
  /\ exists new,
       calls Mock.afterReads = (calls Mock.start ++ new)%list
       /\ forallb (fun c => negb (isBroadcast c)) new = true.
Proof.
  apply (settle_refuses_what_verify_rejects Mock.Chain
           SuiUtils.normalizeStructTag _ Mock.thePayload Mock.theRequirements
           Mock.start
           (invalid
              "invalid_exact_sui_payload_transaction_signature_verification_failed"
              (Some "Invalid signature") None)
           Mock.afterReads);
    reflexivity.
Defined.


(** C8 at work: the test signer recovers [PAYER] and broadcasts with a
    digest, neither of them empty. *)
Lemma response_invariants_of_a_payment :
  exists vr w1 sr w2,
    verify SuiUtils.normalizeStructTag (Mock.paying "100000")
      Mock.thePayload Mock.theRequirements Mock.start = (Normal vr, w1)
    /\ settle SuiUtils.normalizeStructTag (Mock.paying "100000")
         Mock.thePayload Mock.theRequirements Mock.start = (Normal sr, w2)
    /\ (VerifyResponse.isValid vr = true ->
        exists P, VerifyResponse.payer vr = Some P /\ P <> "")
    /\ (SettleResponse.success sr = true ->
        SettleResponse.transaction sr <> "")
    /\ (SettleResponse.success sr = false ->
        SettleResponse.transaction sr = "").
Proof.
  apply (response_invariants Mock.Chain SuiUtils.normalizeStructTag
           (Mock.paying "100000") Mock.thePayload Mock.theRequirements
           Mock.start).
  - intros c tx sg net P H. cbn in H. injection H as <-. discriminate.
  - intros c tx sg net digest c' H. cbn in H. injection H as <- _.
    discriminate.
Defined.


(** C2 at work: a payment to another address is a recipient mismatch. *)
Lemma mismatch_of_another_recipient :
  fst (verify SuiUtils.normalizeStructTag
         (Mock.returning
            [Mock.change (AddressOwner Mock.OTHER) Mock.USDC "100000"])
         Mock.thePayload Mock.theRequirements Mock.start)
  = Normal (invalid "invalid_exact_sui_payload_recipient_mismatch"
              None (Some Mock.PAYER)).
Proof.
  apply (proj1
           (mismatch_is_told_apart Mock.Chain SuiUtils.normalizeStructTag
              (Mock.returning
                 [Mock.change (AddressOwner Mock.OTHER) Mock.USDC "100000"])
              Mock.thePayload Mock.theRequirements Mock.start Mock.PAYER
              (Mock.createSuccessfulDryRun
                 [Mock.change (AddressOwner Mock.OTHER) Mock.USDC "100000"])
              eq_refl eq_refl eq_refl eq_refl
              ltac:(discriminate))).
  intros bc [<-|[]]. discriminate.
Defined.

(** C2 fails as stated: the recipient received SUI while the requirements
    name an asset that is not a struct tag.  A change is owned by [payTo]
    and none of them has the required asset, yet the answer is
    [simulation_failed]: the comparison threw, and the [catch] block turned
    the error into that reason. *)
Lemma mismatch_lost_to_a_thrown_comparison :
  let r := Mock.createMockRequirements "USDC" "100000" Mock.PAYTO in
  let changes := [Mock.change (AddressOwner Mock.PAYTO) Mock.SUI "100000"] in
  let answer :=
    fst (verify SuiUtils.normalizeStructTag (Mock.returning changes)
           Mock.thePayload r Mock.start) in
  preChecksPass Mock.thePayload r = true
  /\ (exists bc, In bc changes
                 /\ owner bc = AddressOwner (Requirements.payTo r))
  /\ (forall bc, In bc changes ->
                 coinTypesEqual SuiUtils.normalizeStructTag (coinType bc)
                   (Requirements.asset r) <> Normal true)
  /\ (exists vr,
        answer = Normal vr
        /\ VerifyResponse.invalidReason vr
           = Some "transaction_simulation_failed"
        /\ VerifyResponse.payer vr = None)
  /\ answer
     <> Normal (invalid "invalid_exact_sui_payload_asset_mismatch"
                  None (Some Mock.PAYER)).
Proof.
  cbv zeta. split; [reflexivity|]. split.
  - eexists. split; [left; reflexivity|reflexivity].
  - split; [intros bc [<-|[]]; discriminate|].
    split; [|discriminate].
    eexists. split; [reflexivity|]. split; reflexivity.
Qed.





(** C6 at work: the coin type of SUI written with a short and with a
    full address. *)
Lemma short_asset_is_the_same_asset :
  coinTypesEqual SuiUtils.normalizeStructTag "0x2::sui::SUI"
    (Mock.LONG2 ++ "::sui::SUI") = Normal true.
Proof.
  apply (proj1 (proj2
           (assets_are_compared_in_normal_form Mock.Chain
              SuiUtils.normalizeStructTag (Mock.paying "100000")))
           "0x2::sui::SUI" (Mock.LONG2 ++ "::sui::SUI")
           (Mock.LONG2 ++ "::sui::SUI"));
    reflexivity.
Defined.

(** C6 fails as stated: the recipient is compared as written.  The
    required recipient is the short form of the address that received the
    payment, and the answer is [recipient_mismatch]. *)
Lemma short_recipient_is_a_mismatch :
  SuiUtils.normalizeSuiAddress Mock.SHORT2
  = SuiUtils.normalizeSuiAddress Mock.LONG2
  /\ fst (verify SuiUtils.normalizeStructTag
            (Mock.returning
               [Mock.change (AddressOwner Mock.LONG2) Mock.USDC "100000"])
            Mock.thePayload
            (Mock.createMockRequirements Mock.USDC "100000" Mock.SHORT2)
            Mock.start)
     = Normal (invalid "invalid_exact_sui_payload_recipient_mismatch"
                 None (Some Mock.PAYER)).
Proof.
  split; reflexivity.
Qed.

(** C7, on the code.  The claim is that a change whose owner is an object,
    shared or immutable never passes for the recipient.  With an empty
    [payTo] each of the three passes the recipient test, and a payment to
    an object is answered as valid. *)
Theorem owner_filter_fails_for_empty_payTo :
  let r := Mock.createMockRequirements Mock.USDC "100000" "" in
  isRecipientChange r
    (Mock.change (ObjectOwnerOf Mock.OTHER) Mock.USDC "100000") = true
  /\ isRecipientChange r (Mock.change (Shared "1") Mock.USDC "100000") = true
  /\ isRecipientChange r (Mock.change Immutable Mock.USDC "100000") = true
  /\ fst (verify SuiUtils.normalizeStructTag
            (Mock.returning
               [Mock.change (ObjectOwnerOf Mock.OTHER) Mock.USDC "100000"])
            Mock.thePayload r Mock.start)
     = Normal
         {| VerifyResponse.isValid := true;
            VerifyResponse.invalidReason := None;
            VerifyResponse.invalidMessage := None;
            VerifyResponse.payer := Some Mock.PAYER |}.
Proof.
  cbv zeta. repeat split.
Qed.

(** ** More on the facilitator scheme *)

Section Discipline.

Variable Chain : Type.
Variable normalizeStructTag : string -> Completion string.
Variable signer : FacilitatorSuiSigner Chain.

Implicit Types (p : PaymentPayload) (r : PaymentRequirements)
  (w : World Chain).

Lemma Js_find_some {A : Type} (f : A -> Completion bool) (l : list A) x :
  Js.find f l = Normal (Some x) -> In x l /\ f x = Normal true.
Proof.
  induction l as [|y rest IH]; cbn [Js.find]; [discriminate|].
  destruct (f y) as [[|]|e] eqn:Hy; [| |discriminate].
  - intros [= <-]. split; [left; reflexivity|exact Hy].
  - intros H. destruct (IH H) as [Hin Hx]. split; [right; exact Hin|exact Hx].
Qed.

Lemma Js_find_first {A : Type} (f : A -> Completion bool)
  (before after : list A) x :
  (forall y, In y before -> f y = Normal false) ->
  f x = Normal true ->
  Js.find f (before ++ x :: after) = Normal (Some x).
Proof.
  induction before as [|y rest IH]; intros Hbefore Hx; cbn [app Js.find].
  - rewrite Hx. reflexivity.
  - rewrite (Hbefore y (or_introl eq_refl)).
    apply IH; [|exact Hx]. intros z Hz. apply Hbefore. right. exact Hz.
Qed.

(** What a fall through of the [try] block stands on. *)
Lemma checkDryRun_fallthrough r P dry payer :
  checkDryRun normalizeStructTag r P dry = Normal (inr payer) ->
  payer = P
  /\ isSuccess (effectsStatus dry) = true
  /\ exists change delta required,
       In change (Js.nullish (balanceChanges dry) [])
       /\ extractAddress (owner change) = Requirements.payTo r
       /\ coinTypesEqual normalizeStructTag (coinType change)
            (Requirements.asset r) = Normal true
       /\ Js.BigInt (amount change) = Normal delta
       /\ Js.BigInt (Requirements.amount r) = Normal required
       /\ (required <= delta)%Z.
Proof.
  unfold checkDryRun.
  destruct (isSuccess (effectsStatus dry)); cbn [negb]; [|discriminate].
  destruct (Js.find _ _) as [[change|]|e] eqn:Hfind; cbn [cbind];
    [| destruct (List.find _ _); discriminate | discriminate].
  destruct (Js.BigInt (amount change)) as [delta|e] eqn:Hd; cbn [cbind];
    [|discriminate].
  destruct (Js.BigInt (Requirements.amount r)) as [required|e] eqn:Ha;
    cbn [cbind]; [|discriminate].
  destruct (delta <? required)%Z eqn:Hlt; [discriminate|].
  intros [= <-]. split; [reflexivity|]. split; [reflexivity|].
  apply Js_find_some in Hfind. destruct Hfind as [Hin Hmatch].
  unfold isRecipientAssetChange, isRecipientChange in Hmatch.
  destruct (extractAddress (owner change) =? Requirements.payTo r) eqn:Hr;
    [|discriminate].
  apply String.eqb_eq in Hr. apply Z.ltb_ge in Hlt.
  exists change, delta, required. repeat split; assumption.
Qed.

(** X1. A valid verdict is backed by the simulation: the pre-checks
    passed, the signer was recovered and is the payer of the response, the
    dry run succeeded, and its balance changes hold one whose extracted
    address is [payTo], whose coin type equals the required asset in normal
    form, and whose delta is an integer not below the required amount. *)
Theorem valid_verdict_is_backed_by_a_change p r w vr w1 :
  verify normalizeStructTag signer p r w = (Normal vr, w1) ->
  VerifyResponse.isValid vr = true ->
  preChecksPass p r = true
  /\ exists P dry change delta required,
       outcome (signatureCall signer p r w) = Normal P
       /\ VerifyResponse.payer vr = Some P
       /\ outcome (simulationCall signer p r w) = Normal dry
       /\ isSuccess (effectsStatus dry) = true
       /\ In change (Js.nullish (balanceChanges dry) [])
       /\ extractAddress (owner change) = Requirements.payTo r
       /\ coinTypesEqual normalizeStructTag (coinType change)
            (Requirements.asset r) = Normal true
       /\ Js.BigInt (amount change) = Normal delta
       /\ Js.BigInt (Requirements.amount r) = Normal required
       /\ (required <= delta)%Z.
Proof.
  intros Hv Hvalid.
  destruct (preChecksPass p r) eqn:Hpre.
  - split; [reflexivity|].
    rewrite (verify_passed Chain normalizeStructTag signer p r w Hpre) in Hv.
    injection Hv as <- _. unfold Promise_all in *.
    destruct (outcome (signatureCall signer p r w)) as [P|e1];
      destruct (outcome (simulationCall signer p r w)) as [dry|e2];
      try destruct (_ <? _)%nat;
      cbn [outcome cbind fst snd verdict] in *;
      try (destruct (classifyError_shape e1) as [? Hc];
           rewrite Hc in Hvalid; discriminate);
      try (destruct (classifyError_shape e2) as [? Hc];
           rewrite Hc in Hvalid; discriminate).
    destruct (checkDryRun normalizeStructTag r P dry)
      as [[response|payer]|e] eqn:Hc; cbn [verdict] in *.
    + apply checkDryRun_shape in Hc. destruct Hc as (? & ? & ->).
      discriminate.
    + apply checkDryRun_fallthrough in Hc.
      destruct Hc as (-> & Hok & change & delta & required & H).
      exists P, dry, change, delta, required.
      split; [reflexivity|]. split; [reflexivity|]. split; [reflexivity|].
      split; [exact Hok|exact H].
    + destruct (classifyError_shape e) as [? Hc'].
      rewrite Hc' in Hvalid. discriminate.
  - destruct (verify_stopped Chain normalizeStructTag signer p r w Hpre)
      as [reason H].
    rewrite H in Hv. injection Hv as <- _. discriminate.
Qed.

(** X3. The pre-checks answer in order and without payer: a scheme other
    than [exact] on either side is [unsupported_scheme] whatever else is
    wrong; with both schemes right, different networks are
    [network_mismatch]; with those right, a missing or empty transaction or
    signature is the undecodable payload. *)
Theorem preChecks_answer_in_order p r w :
  let schemes :=
    (Accepted.scheme (accepted p) =? "exact")
    && (Requirements.scheme r =? "exact") in
  let networks := Accepted.network (accepted p) =? Requirements.network r in
  let shape :=
    Js.truthy (payloadTransaction p) && Js.truthy (payloadSignature p) in
  (schemes = false ->
   verify normalizeStructTag signer p r w
   = (Normal (invalid "unsupported_scheme" None None), w))
  /\ (schemes = true -> networks = false ->
      verify normalizeStructTag signer p r w
      = (Normal (invalid "network_mismatch" None None), w))
  /\ (schemes = true -> networks = true -> shape = false ->
      verify normalizeStructTag signer p r w
      = (Normal
           (invalid
              "invalid_exact_sui_payload_transaction_could_not_be_decoded"
              None None),
         w)).
Proof.
  cbv zeta. unfold verify.
  destruct (Accepted.scheme (accepted p) =? "exact");
    destruct (Requirements.scheme r =? "exact"); cbn [negb orb andb];
    (split; [intros H; try discriminate H; reflexivity|]);
    (split; [intros H; try discriminate H|intros H; try discriminate H]).
  - intros ->. reflexivity.
  - intros -> Hshape. cbn [negb].
    destruct (Js.truthy (payloadTransaction p));
      destruct (Js.truthy (payloadSignature p));
      cbn [negb orb andb] in *; try discriminate; reflexivity.
Qed.

Ltac enter_settle' H :=
  unfold settle, bind at 1; rewrite H; cbn [negb].

Ltac run_broadcast' :=
  unfold tryCatch, bind, signer_executeTransaction,
    signer_waitForTransaction, ret, logged, broadcastCall in *;
  cbn [chain calls fst snd] in *.

(** X4. [settle] broadcasts at most once, and only after a valid
    verification.  After a rejected verification the world is the one the
    verification left.  After a valid one [executeTransaction] is called
    once with the payload's transaction and signature, the chain is the one
    that call leaves, also when the call or the wait raises, and
    [waitForTransaction] is called, once and with the returned digest, only
    when the broadcast returned. *)
Theorem settle_broadcasts_at_most_once p r w :
  exists vr w1 sr w2,
    verify normalizeStructTag signer p r w = (Normal vr, w1)
    /\ settle normalizeStructTag signer p r w = (Normal sr, w2)
    /\ if VerifyResponse.isValid vr then
         match broadcastCall signer p r w1 with
         | (Normal digest, after) =>
             chain w2 = after
             /\ calls w2
                = (calls w1
                   ++ [CallExecuteTransaction
                         (payloadText (payloadTransaction p))
                         (payloadText (payloadSignature p))
                         (Requirements.network r);
                       CallWaitForTransaction digest
                         (Requirements.network r)])%list
         | (Throw _, after) =>
             chain w2 = after
             /\ calls w2
                = (calls w1
                   ++ [CallExecuteTransaction
                         (payloadText (payloadTransaction p))
                         (payloadText (payloadSignature p))
                         (Requirements.network r)])%list
         end
       else w2 = w1.
Proof.
  destruct (verify_returns Chain normalizeStructTag signer p r w)
    as (vr & new & Hv & _ & _).
  exists vr, (withCalls w new).
  enter_settle' Hv.
  destruct (VerifyResponse.isValid vr); cbn [negb].
  - run_broadcast'.
    destruct (executeTransaction signer _ _ _ _) as [[digest|e] after];
      cbn [chain calls].
    + destruct (waitForTransaction signer after digest _) as [[]|e];
        eexists _, _; (split; [reflexivity|]); (split; [reflexivity|]);
        cbn [chain calls]; rewrite <- app_assoc; split; reflexivity.
    + eexists _, _; (split; [reflexivity|]); (split; [reflexivity|]);
        cbn [chain calls]; split; reflexivity.
  - eexists _, _; (split; [reflexivity|]); (split; [reflexivity|]).
    reflexivity.
Qed.

Lemma valid_needs_preChecks p r w vr w1 :
  verify normalizeStructTag signer p r w = (Normal vr, w1) ->
  VerifyResponse.isValid vr = true ->
  preChecksPass p r = true.
Proof.
  intros Hv Hvalid. destruct (preChecksPass p r) eqn:Hpre; [reflexivity|].
  destruct (verify_stopped Chain normalizeStructTag signer p r w Hpre)
    as [reason H].
  rewrite H in Hv. injection Hv as <- _. discriminate.
Qed.

(** X5. [settle] answers [success = true] exactly when its verification
    is valid, the broadcast returns a digest and the wait for finality
    returns; the response then carries that digest, the payer of the
    verification, the network of the requirements, and no error. *)
Theorem settle_succeeds_exactly_when p r w :
  exists vr w1 sr w2,
    verify normalizeStructTag signer p r w = (Normal vr, w1)
    /\ settle normalizeStructTag signer p r w = (Normal sr, w2)
    /\ (SettleResponse.success sr = true <->
        VerifyResponse.isValid vr = true
        /\ exists digest,
             fst (broadcastCall signer p r w1) = Normal digest
             /\ waitForTransaction signer (snd (broadcastCall signer p r w1))
                  digest (Requirements.network r) = Normal tt)
    /\ (SettleResponse.success sr = true ->
        fst (broadcastCall signer p r w1)
        = Normal (SettleResponse.transaction sr)
        /\ SettleResponse.payer sr = VerifyResponse.payer vr
        /\ SettleResponse.network sr = Requirements.network r
        /\ SettleResponse.errorReason sr = None
        /\ SettleResponse.errorMessage sr = None).
Proof.
  destruct (verify_returns Chain normalizeStructTag signer p r w)
    as (vr & new & Hv & _ & _).
  exists vr, (withCalls w new).
  assert (Hnet : VerifyResponse.isValid vr = true ->
                 Accepted.network (accepted p) = Requirements.network r).
  { intros Hvalid.
    pose proof (valid_needs_preChecks p r w vr _ Hv Hvalid) as Hpre.
    apply preChecksPass_inv in Hpre. destruct Hpre as (_ & _ & Hn & _).
    apply String.eqb_eq. exact Hn. }
  enter_settle' Hv.
  destruct (VerifyResponse.isValid vr) eqn:Hvalid; cbn [negb].
  - specialize (Hnet eq_refl). run_broadcast'.
    destruct (executeTransaction signer _ _ _ _) as [[digest|e] after];
      cbn [chain calls fst snd].
    + destruct (waitForTransaction signer after digest _) as [[]|e] eqn:Hw;
        eexists _, _; (split; [reflexivity|]); (split; [reflexivity|]);
        cbn [SettleResponse.success SettleResponse.transaction
             SettleResponse.payer SettleResponse.network
             SettleResponse.errorReason SettleResponse.errorMessage].
      * split.
        -- split; [intros _|reflexivity].
           split; [reflexivity|]. exists digest. split; [reflexivity|].
           exact Hw.
        -- intros _. repeat split. exact Hnet.
      * split; [|discriminate].
        split; [discriminate|].
        intros (_ & d & [= <-] & H). cbn [snd] in H. rewrite Hw in H.
        discriminate.
    + eexists _, _; (split; [reflexivity|]); (split; [reflexivity|]).
      cbn [SettleResponse.success]. split; [|discriminate].
      split; [discriminate|]. intros (_ & d & H & _). discriminate.
  - eexists _, _; (split; [reflexivity|]); (split; [reflexivity|]).
    cbn [SettleResponse.success]. split; [|discriminate].
    split; [discriminate|]. intros (H & _). discriminate.
Qed.

(** X6. The first matching change decides.  When the balance changes
    before [change] do not match recipient and asset and [change] does,
    the verdict is the one on the delta of [change], insufficient or valid,
    whatever changes follow it. *)
Theorem first_matching_change_decides p r w P dry before change after
  delta required :
  preChecksPass p r = true ->
  outcome (signatureCall signer p r w) = Normal P ->
  outcome (simulationCall signer p r w) = Normal dry ->
  isSuccess (effectsStatus dry) = true ->
  Js.nullish (balanceChanges dry) [] = (before ++ change :: after)%list ->
  (forall bc, In bc before ->
              isRecipientAssetChange normalizeStructTag r bc = Normal false) ->
  isRecipientAssetChange normalizeStructTag r change = Normal true ->
  Js.BigInt (amount change) = Normal delta ->
  Js.BigInt (Requirements.amount r) = Normal required ->
  fst (verify normalizeStructTag signer p r w)
  = Normal
      (if (delta <? required)%Z
       then invalid "invalid_exact_sui_payload_amount_insufficient"
              None (Some P)
       else validResponse P).
Proof.
  intros Hpre HP Hdry Hok Hlist Hbefore Hchange Hd Ha.
  rewrite (verify_checked Chain normalizeStructTag signer p r w P dry
             Hpre HP Hdry).
  cbn [fst]. unfold checkDryRun. rewrite Hok, Hlist. cbn [negb].
  rewrite (Js_find_first _ before after change Hbefore Hchange).
  cbn [cbind]. rewrite Hd, Ha. cbn [cbind].
  destruct (delta <? required)%Z; reflexivity.
Qed.

(** X7. Neither [verify] nor [settle] reads [maxTimeoutSeconds] or the
    protocol version of the payload: with any other values the result and
    the calls are the same. *)
Theorem timeout_and_version_are_not_read p r w seconds version :
  verify normalizeStructTag signer (withVersion p version)
    (withMaxTimeoutSeconds r seconds) w
  = verify normalizeStructTag signer p r w
  /\ settle normalizeStructTag signer (withVersion p version)
       (withMaxTimeoutSeconds r seconds) w
     = settle normalizeStructTag signer p r w.
Proof.
  split; reflexivity.
Qed.

End Discipline.

(** ** utils.ts: addresses and token amounts *)

Lemma hexDigitsToEnd_length n s :
  Utils.hexDigitsToEnd n s = true -> String.length s = n.
Proof.
  revert s. induction n as [|k IH]; intros [|c rest]; cbn; try discriminate.
  - reflexivity.
  - intros H. apply andb_prop in H. destruct H as [_ H].
    rewrite (IH rest H). reflexivity.
Qed.

Lemma hexDigitsToEnd_spec n s :
  Utils.hexDigitsToEnd n s = true <->
  String.length s = n
  /\ forall c, In c (list_ascii_of_string s) -> Utils.isHexDigit c = true.
Proof.
  revert s. induction n as [|k IH]; intros [|c rest]; cbn.
  - split; [intros _; split; [reflexivity|intros c []]|reflexivity].
  - split; [discriminate|intros [H _]; discriminate].
  - split; [discriminate|intros [H _]; discriminate].
  - rewrite andb_true_iff, IH. split.
    + intros (Hc & Hlen & Hrest). split; [congruence|].
      intros c' [<-|Hin]; [exact Hc|apply Hrest; exact Hin].
    + intros (Hlen & Hall). split; [apply Hall; left; reflexivity|].
      split; [congruence|]. intros c' Hin. apply Hall. right. exact Hin.
Qed.

(** X8. [validateSuiAddress] accepts exactly the texts made of [0x] and
    64 hexadecimal digits: an accepted text has 66 characters, so that the
    empty text and short forms such as [0x2] are refused. *)
Theorem validateSuiAddress_full_length address :
  Utils.validateSuiAddress address = true <->
  exists digits,
    address = "0x" ++ digits
    /\ String.length digits = 64
    /\ forall c, In c (list_ascii_of_string digits) ->
                 Utils.isHexDigit c = true.
Proof.
  unfold Utils.validateSuiAddress, Utils.SUI_ADDRESS_REGEX_test. split.
  - destruct address as [|c0 [|c1 rest]]; try discriminate.
    intros H. apply andb_prop in H. destruct H as [H Hhex].
    apply andb_prop in H. destruct H as [H0 H1].
    apply Ascii.eqb_eq in H0, H1. subst c0 c1.
    exists rest. split; [reflexivity|].
    apply hexDigitsToEnd_spec. exact Hhex.
  - intros (digits & -> & Hlen & Hall). cbn [append].
    cbn [Ascii.eqb Bool.eqb andb].
    apply hexDigitsToEnd_spec. split; assumption.
Qed.

(** X9. For a recipient that [validateSuiAddress] accepts, a balance
    change passes the recipient test of [verify] exactly when it is owned
    by that very address: changes owned by an object, shared or immutable
    never pass. *)
Theorem validated_payTo_admits_address_owners_only
  (r : PaymentRequirements) (bc : BalanceChange) :
  Utils.validateSuiAddress (Requirements.payTo r) = true ->
  isRecipientChange r bc = true <->
  owner bc = AddressOwner (Requirements.payTo r).
Proof.
  intros Hvalid. apply isRecipientChange_owner.
  intros Hempty. rewrite Hempty in Hvalid. discriminate.
Qed.

Lemma append_empty_r (s : string) : s ++ "" = s.
Proof.
  induction s as [|c rest IH]; cbn; [reflexivity|]. rewrite IH. reflexivity.
Qed.

Lemma append_assoc (a b c : string) : (a ++ b) ++ c = a ++ (b ++ c).
Proof.
  induction a as [|x rest IH]; cbn; [reflexivity|]. rewrite IH. reflexivity.
Qed.

Lemma substring_whole (s : string) : substring 0 (String.length s) s = s.
Proof.
  induction s as [|c rest IH]; cbn; [reflexivity|]. rewrite IH. reflexivity.
Qed.

Lemma stripLeadingZeros_canonical s :
  Utils.orZero (Utils.stripLeadingZeros s) <> ""
  /\ (Utils.orZero (Utils.stripLeadingZeros s) = "0"
      \/ String.prefix "0" (Utils.orZero (Utils.stripLeadingZeros s)) = false).
Proof.
  induction s as [|c rest IH]; cbn [Utils.stripLeadingZeros].
  - cbn. split; [discriminate|left; reflexivity].
  - destruct (Ascii.eqb c "0") eqn:Hc; [exact IH|].
    cbn [Utils.orZero]. split; [discriminate|]. right.
    cbn [String.prefix].
    destruct (ascii_dec "0" c) as [<-|_]; [|reflexivity].
    rewrite Ascii.eqb_refl in Hc. discriminate.
Qed.

(** The decimal digits, which are neither white space nor a dot. *)
Lemma decimal_digit_plain c d :
  Js.digitValue c = Some d -> (d <? 10)%Z = true ->
  Js.isStrWhiteSpaceChar c = false
  /\ Ascii.eqb c "." = false /\ Ascii.eqb c "+" = false
  /\ Ascii.eqb c "-" = false
  /\ (Ascii.eqb c "0" = true -> d = 0%Z).
Proof.
  destruct c as [[] [] [] [] [] [] [] []]; vm_compute;
    intros H1 H2; try discriminate;
    injection H1 as <-; repeat split; try reflexivity; try discriminate;
    intros H; try discriminate; reflexivity.
Qed.

Lemma dropWhile_none {A : Type} (f : A -> bool) (l : list A) :
  (forall x, In x l -> f x = false) -> Js.dropWhile f l = l.
Proof.
  destruct l as [|x rest]; intros H; cbn; [reflexivity|].
  rewrite (H x (or_introl eq_refl)). reflexivity.
Qed.

Lemma trim_without_white_space s :
  (forall c, In c (list_ascii_of_string s) ->
             Js.isStrWhiteSpaceChar c = false) ->
  Js.trim s = s.
Proof.
  intros H. unfold Js.trim.
  rewrite (dropWhile_none _ _ H).
  rewrite dropWhile_none.
  - rewrite rev_involutive. apply string_of_list_ascii_of_string.
  - intros c Hin. apply H. apply in_rev. exact Hin.
Qed.

Lemma parseDigits_chars radix acc s v :
  Js.parseDigits radix acc s = Some v ->
  forall c, In c (list_ascii_of_string s) ->
            exists d, Js.digitValue c = Some d /\ (d <? radix)%Z = true.
Proof.
  revert acc. induction s as [|x rest IH]; intros acc H c Hin;
    [destruct Hin|].
  cbn [Js.parseDigits] in H.
  destruct (Js.digitValue x) as [d|] eqn:Hx; [|discriminate].
  destruct (d <? radix)%Z eqn:Hd; [|discriminate].
  destruct Hin as [<-|Hin]; [eauto|]. eapply IH; eassumption.
Qed.

Lemma parseDigits_append radix acc a b v :
  Js.parseDigits radix acc a = Some v ->
  Js.parseDigits radix acc (a ++ b) = Js.parseDigits radix v b.
Proof.
  revert acc. induction a as [|x rest IH]; intros acc; cbn.
  - intros [= <-]. reflexivity.
  - destruct (Js.digitValue x) as [d|]; [|discriminate].
    destruct (d <? radix)%Z; [|discriminate]. apply IH.
Qed.

Lemma parseDigits_shift radix acc s v :
  Js.parseDigits radix acc s = Some v ->
  exists v0,
    Js.parseDigits radix 0 s = Some v0
    /\ v = (acc * radix ^ Z.of_nat (String.length s) + v0)%Z.
Proof.
  revert acc v. induction s as [|x rest IH]; intros acc v.
  - cbn. intros [= <-]. exists 0%Z. split; [reflexivity|lia].
  - cbn [Js.parseDigits String.length].
    destruct (Js.digitValue x) as [d|]; [|discriminate].
    destruct (d <? radix)%Z; [|discriminate].
    intros H. destruct (IH _ _ H) as (v1 & H1 & ->).
    change (0 * radix + d)%Z with d.
    destruct (Js.parseDigits radix d rest) as [vd|] eqn:Hd.
    + destruct (IH _ _ Hd) as (v2 & H2 & ->).
      rewrite H1 in H2. injection H2 as <-.
      exists (d * radix ^ Z.of_nat (String.length rest) + v1)%Z.
      split; [reflexivity|].
      rewrite Nat2Z.inj_succ, Z.pow_succ_r by lia. ring.
    + exfalso. revert H1 Hd. clear. revert d.
      generalize 0%Z as a.
      induction rest as [|y rest' IH']; intros a d; cbn; [discriminate|].
      destruct (Js.digitValue y) as [e|]; [|discriminate].
      destruct (e <? radix)%Z; [|discriminate]. apply IH'.
Qed.

Lemma parseDigits_stripLeadingZeros s v :
  Js.parseDigits 10 0 s = Some v ->
  Js.parseDigits 10 0 (Utils.stripLeadingZeros s) = Some v.
Proof.
  induction s as [|c rest IH]; [intros H; exact H|].
  cbn [Utils.stripLeadingZeros].
  destruct (Ascii.eqb c "0") eqn:Hc; [|intros H; exact H].
  apply Ascii.eqb_eq in Hc. subst c. intros H. apply IH. exact H.
Qed.

Lemma stripLeadingZeros_head s c rest :
  Utils.stripLeadingZeros s = String c rest -> Ascii.eqb c "0" = false.
Proof.
  induction s as [|x xs IH]; cbn [Utils.stripLeadingZeros]; [discriminate|].
  destruct (Ascii.eqb x "0") eqn:Hx; [exact IH|].
  intros H. injection H as H1 _. subst x. exact Hx.
Qed.

(** A canonical decimal literal is read by [BigInt] as its value. *)
Lemma BigInt_of_canonical s v :
  Js.parseDigits 10 0 s = Some v ->
  Js.BigInt (Utils.orZero (Utils.stripLeadingZeros s)) = Normal v.
Proof.
  intros H. apply parseDigits_stripLeadingZeros in H.
  destruct (Utils.stripLeadingZeros s) as [|c rest] eqn:Hs.
  - injection H as <-. reflexivity.
  - pose proof (stripLeadingZeros_head s c rest Hs) as Hc.
    cbn [Utils.orZero]. unfold Js.BigInt, Js.StringToBigInt.
    rewrite trim_without_white_space.
    + destruct (parseDigits_chars _ _ _ _ H c (or_introl eq_refl))
        as (d & Hd & Hlt).
      destruct (decimal_digit_plain c d Hd Hlt) as (_ & _ & Hp & Hm & _).
      rewrite Hp, Hm, Hc. cbn [andb].
      destruct rest as [|p digits];
        unfold Js.parseNonEmptyDigits; rewrite H; reflexivity.
    + intros x Hx.
      destruct (parseDigits_chars _ _ _ _ H x Hx) as (d & Hd & Hlt).
      apply (decimal_digit_plain x d Hd Hlt).
Qed.

Lemma splitOn_without_dot s v :
  Js.parseDigits 10 0 s = Some v -> Utils.splitOn "." s = [s].
Proof.
  intros H.
  assert (Hchars : forall c, In c (list_ascii_of_string s) ->
                             Ascii.eqb c "." = false).
  { intros c Hin.
    destruct (parseDigits_chars _ _ _ _ H c Hin) as (d & Hd & Hlt).
    apply (decimal_digit_plain c d Hd Hlt). }
  clear H. induction s as [|c rest IH]; [reflexivity|].
  cbn [Utils.splitOn]. rewrite (Hchars c (or_introl eq_refl)).
  rewrite IH; [reflexivity|]. intros x Hx. apply Hchars. right. exact Hx.
Qed.

Lemma splitOn_one_dot i f vi vf :
  Js.parseDigits 10 0 i = Some vi ->
  Js.parseDigits 10 0 f = Some vf ->
  Utils.splitOn "." (i ++ "." ++ f) = [i; f].
Proof.
  intros Hi Hf.
  assert (Hchars : forall c, In c (list_ascii_of_string i) ->
                             Ascii.eqb c "." = false).
  { intros c Hin.
    destruct (parseDigits_chars _ _ _ _ Hi c Hin) as (d & Hd & Hlt).
    apply (decimal_digit_plain c d Hd Hlt). }
  clear Hi. induction i as [|c rest IH].
  - cbn. rewrite (splitOn_without_dot f vf Hf). reflexivity.
  - cbn [append Utils.splitOn]. rewrite (Hchars c (or_introl eq_refl)).
    change (rest ++ String "." f) with (rest ++ "." ++ f).
    rewrite IH; [reflexivity|]. intros x Hx. apply Hchars. right. exact Hx.
Qed.

Section MoneyFacts.

Variable Number : Type.
Variable parseFloat : string -> Number.
Variable isNaN : Number -> bool.
Variable toFixed : Number -> nat -> Completion string.
Variable toString : Number -> string.
Variable JsValue : Type.

Lemma convertToTokenAmount_is_canonical' decimalAmount decimals tokenAmount :
  convertToTokenAmount Number parseFloat isNaN toFixed decimalAmount decimals
  = Normal tokenAmount ->
  tokenAmount <> ""
  /\ (tokenAmount = "0" \/ String.prefix "0" tokenAmount = false).
Proof.
  unfold convertToTokenAmount.
  destruct (String.prefix "-" (Js.trim decimalAmount)); [discriminate|].
  destruct (isNaN _); [discriminate|].
  destruct (toFixed _ decimals) as [fixed|e]; cbn [cbind]; [|discriminate].
  intros [= <-]. apply stripLeadingZeros_canonical.
Qed.

(** X10. Whatever the number operations give, a token amount that
    [convertToTokenAmount] returns is a non-empty text that does not start
    with a zero, unless it is the text [0]. *)
Theorem convertToTokenAmount_is_canonical decimalAmount decimals tokenAmount :
  convertToTokenAmount Number parseFloat isNaN toFixed decimalAmount decimals
  = Normal tokenAmount ->
  tokenAmount <> ""
  /\ (tokenAmount = "0" \/ String.prefix "0" tokenAmount = false).
Proof.
  unfold convertToTokenAmount.
  destruct (String.prefix "-" (Js.trim decimalAmount)); [discriminate|].
  destruct (isNaN _); [discriminate|].
  destruct (toFixed _ decimals) as [fixed|e]; cbn [cbind]; [|discriminate].
  intros [= <-]. apply stripLeadingZeros_canonical.
Qed.

(** X11. When [toFixed] gives the integer digits [i], a dot and
    [decimals] fraction digits [f], [convertToTokenAmount] returns a text
    that [BigInt] reads as the value of [i] times ten to the [decimals]
    plus the value of [f]: the decimal point is moved, no digit is lost,
    and the facilitator can parse what the server computed. *)
Theorem convertToTokenAmount_moves_the_point decimalAmount decimals i f vi vf :
  String.prefix "-" (Js.trim decimalAmount) = false ->
  isNaN (parseFloat (Js.trim decimalAmount)) = false ->
  toFixed (parseFloat (Js.trim decimalAmount)) decimals
  = Normal (i ++ "." ++ f) ->
  Js.parseDigits 10 0 i = Some vi ->
  Js.parseDigits 10 0 f = Some vf ->
  String.length f = decimals ->
  exists tokenAmount,
    convertToTokenAmount Number parseFloat isNaN toFixed decimalAmount
      decimals = Normal tokenAmount
    /\ Js.BigInt tokenAmount
       = Normal (vi * 10 ^ Z.of_nat decimals + vf)%Z.
Proof.
  intros Hsign Hnan Hfixed Hi Hf Hlen.
  unfold convertToTokenAmount. rewrite Hsign, Hnan, Hfixed. cbn [cbind].
  eexists. split; [reflexivity|].
  rewrite (splitOn_one_dot i f vi vf Hi Hf). cbn [nth].
  unfold Utils.padEnd. rewrite Hlen, Nat.sub_diag. cbn [Utils.zeros].
  rewrite append_empty_r. rewrite <- Hlen, substring_whole.
  apply BigInt_of_canonical.
  rewrite (parseDigits_append 10 0 i f vi Hi).
  destruct (Js.parseDigits 10 vi f) as [v|] eqn:Hv.
  - destruct (parseDigits_shift _ _ _ _ Hv) as (v0 & H0 & ->).
    rewrite Hf in H0. injection H0 as <-. reflexivity.
  - exfalso. revert Hf Hv. clear. revert vi. generalize 0%Z as a.
    induction f as [|y rest IH]; intros a b; cbn; [discriminate|].
    destruct (Js.digitValue y) as [e|]; [|discriminate].
    destruct (e <? 10)%Z; [|discriminate]. apply IH.
Qed.

(** *** exact/server/scheme.ts *)

Lemma tryMoneyParsers_first before parser after amount network answer :
  (forall q, In q before -> q amount network = Normal None) ->
  parser amount network = Normal (Some answer) ->
  tryMoneyParsers Number parseFloat isNaN toFixed toString JsValue
    (before ++ parser :: after) amount network = Normal answer.
Proof.
  intros Hbefore Hparser.
  induction before as [|q rest IH]; cbn [app tryMoneyParsers].
  - rewrite Hparser. reflexivity.
  - rewrite (Hbefore q (or_introl eq_refl)). cbn [cbind].
    apply IH. intros q' Hq'. apply Hbefore. right. exact Hq'.
Qed.

Lemma tryMoneyParsers_none parsers amount network :
  (forall q, In q parsers -> q amount network = Normal None) ->
  tryMoneyParsers Number parseFloat isNaN toFixed toString JsValue
    parsers amount network
  = defaultMoneyConversion Number parseFloat isNaN toFixed toString JsValue
      amount network.
Proof.
  intros Hall. induction parsers as [|q rest IH]; cbn [tryMoneyParsers].
  - reflexivity.
  - rewrite (Hall q (or_introl eq_refl)). cbn [cbind].
    apply IH. intros q' Hq'. apply Hall. right. exact Hq'.
Qed.

(** X12. The money parsers are tried in the order of registration.  For a
    price that parses to [amount]: the first parser that answers gives the
    result, whatever the parsers registered after it would do; a parser
    that throws before any has answered makes [parsePrice] throw; and the
    default conversion to USDC is used exactly when every registered
    parser answers [null]. *)
Theorem first_parser_to_answer_wins before parser after money amount network :
  parseMoneyToDecimal Number parseFloat isNaN money = Normal amount ->
  (forall q, In q before -> q amount network = Normal None) ->
  (forall answer,
      parser amount network = Normal (Some answer) ->
      parsePrice Number parseFloat isNaN toFixed toString JsValue
        (before ++ parser :: after) (PriceMoney Number JsValue money) network
      = Normal answer)
  /\ (forall e,
        parser amount network = Throw e ->
        parsePrice Number parseFloat isNaN toFixed toString JsValue
          (before ++ parser :: after) (PriceMoney Number JsValue money)
          network
        = Throw e)
  /\ (parser amount network = Normal None ->
      parsePrice Number parseFloat isNaN toFixed toString JsValue
        (registerMoneyParser Number JsValue before parser)
        (PriceMoney Number JsValue money) network
      = defaultMoneyConversion Number parseFloat isNaN toFixed toString
          JsValue amount network).
Proof.
  intros Hmoney Hbefore. unfold parsePrice. rewrite Hmoney. cbn [cbind].
  split; [|split].
  - intros answer Hparser. apply tryMoneyParsers_first; assumption.
  - intros e Hparser. clear Hmoney.
    induction before as [|q rest IH]; cbn [app tryMoneyParsers].
    + rewrite Hparser. reflexivity.
    + rewrite (Hbefore q (or_introl eq_refl)). cbn [cbind].
      apply IH. intros q' Hq'. apply Hbefore. right. exact Hq'.
  - intros Hparser. apply tryMoneyParsers_none.
    unfold registerMoneyParser. intros q Hq. apply in_app_or in Hq.
    destruct Hq as [Hq|[<-|[]]]; [apply Hbefore; exact Hq|exact Hparser].
Qed.

(** X13. A price that is already an asset amount bypasses the parsers and
    the number operations: with an asset that is present and not empty it
    is returned as it is, on every network, with an empty object for a
    missing [extra]; without one, [parsePrice] throws. *)
Theorem asset_amount_is_passed_through parsers object network :
  (Js.truthy (PriceObject.asset object) = true ->
   exists coin,
     PriceObject.asset object = Some coin
     /\ parsePrice Number parseFloat isNaN toFixed toString JsValue parsers
          (PriceAssetAmount Number JsValue object) network
        = Normal {| AssetAmount.amount := PriceObject.amount object;
                    AssetAmount.asset := coin;
                    AssetAmount.extra :=
                      Js.nullish (PriceObject.extra object) [] |})
  /\ (Js.truthy (PriceObject.asset object) = false ->
      parsePrice Number parseFloat isNaN toFixed toString JsValue parsers
        (PriceAssetAmount Number JsValue object) network
      = Throw (ErrorInstance
                 ("Asset address must be specified for AssetAmount on network "
                  ++ network))).
Proof.
  unfold parsePrice. split; intros H; rewrite H; cbn [negb].
  - destruct (PriceObject.asset object) as [coin|]; [|discriminate].
    exists coin. split; reflexivity.
  - reflexivity.
Qed.

(** X14. Without custom parsers, a money price is converted only on the
    three Sui networks: a result has the USDC coin type of its network,
    devnet sharing the one of testnet, an empty [extra], and a canonical
    amount; on any other network [parsePrice] throws. *)
Theorem default_conversion_is_usdc money network result :
  parsePrice Number parseFloat isNaN toFixed toString JsValue []
    (PriceMoney Number JsValue money) network = Normal result ->
  (network = Constants.SUI_MAINNET_CAIP2
   /\ AssetAmount.asset result = Constants.USDC_MAINNET
   \/ (network = Constants.SUI_TESTNET_CAIP2
       \/ network = Constants.SUI_DEVNET_CAIP2)
      /\ AssetAmount.asset result = Constants.USDC_TESTNET)
  /\ AssetAmount.extra result = []
  /\ AssetAmount.amount result <> ""
  /\ (AssetAmount.amount result = "0"
      \/ String.prefix "0" (AssetAmount.amount result) = false).
Proof.
  unfold parsePrice.
  destruct (parseMoneyToDecimal _ _ _ money) as [amount|e]; cbn [cbind];
    [|discriminate].
  cbn [tryMoneyParsers]. unfold defaultMoneyConversion.
  destruct (convertToTokenAmount _ _ _ _ _ _) as [tokenAmount|e] eqn:Hc;
    cbn [cbind]; [|discriminate].
  apply convertToTokenAmount_is_canonical' in Hc.
  unfold Utils.getUsdcCoinType.
  destruct (network =? Constants.SUI_MAINNET_CAIP2) eqn:Hm.
  { apply String.eqb_eq in Hm. cbn [cbind]. intros [= <-].
    cbn [AssetAmount.asset AssetAmount.extra AssetAmount.amount].
    split; [left; split; [exact Hm|reflexivity]|].
    split; [reflexivity|exact Hc]. }
  destruct (network =? Constants.SUI_TESTNET_CAIP2) eqn:Ht.
  { apply String.eqb_eq in Ht. cbn [cbind]. intros [= <-].
    cbn [AssetAmount.asset AssetAmount.extra AssetAmount.amount].
    split; [right; split; [left; exact Ht|reflexivity]|].
    split; [reflexivity|exact Hc]. }
  destruct (network =? Constants.SUI_DEVNET_CAIP2) eqn:Hd.
  { apply String.eqb_eq in Hd. cbn [cbind]. intros [= <-].
    cbn [AssetAmount.asset AssetAmount.extra AssetAmount.amount].
    split; [right; split; [right; exact Hd|reflexivity]|].
    split; [reflexivity|exact Hc]. }
  cbn [cbind]. discriminate.
Qed.

Lemma plain_char c :
  (((48 <=? nat_of_ascii c)%nat && (nat_of_ascii c <=? 57)%nat)
   || (nat_of_ascii c =? 46)%nat) = true ->
  Js.isStrWhiteSpaceChar c = false
  /\ Ascii.eqb c "$" = false
  /\ Ascii.eqb "U" (upperChar c) = false
  /\ Ascii.eqb "S" (upperChar c) = false.
Proof.
  destruct c as [[] [] [] [] [] [] [] []]; vm_compute; intros H;
    try discriminate; repeat split.
Qed.

Lemma currency_initial b :
  Ascii.eqb "U" (upperChar b) || Ascii.eqb "S" (upperChar b) = true ->
  Js.isStrWhiteSpaceChar b = false /\ Ascii.eqb b "$" = false.
Proof.
  destruct b as [[] [] [] [] [] [] [] []]; vm_compute; intros H;
    try discriminate; split; reflexivity.
Qed.

Lemma white_space_not_dollar c :
  Js.isStrWhiteSpaceChar c = true -> Ascii.eqb c "$" = false.
Proof.
  destruct c as [[] [] [] [] [] [] [] []]; vm_compute; intros H;
    try discriminate; reflexivity.
Qed.

Lemma isPlainDecimal_chars m :
  isPlainDecimal m = true ->
  forall c, In c (list_ascii_of_string m) ->
            Js.isStrWhiteSpaceChar c = false.
Proof.
  induction m as [|x rest IH]; intros H c Hin; [destruct Hin|].
  cbn [isPlainDecimal] in H. apply andb_prop in H. destruct H as [Hx Hrest].
  destruct Hin as [<-|Hin]; [apply (plain_char x Hx)|].
  apply IH; assumption.
Qed.

Lemma startsWithIgnoringCase_append word W tail :
  startsWithIgnoringCase word W = true ->
  startsWithIgnoringCase word (W ++ tail) = true.
Proof.
  revert W. induction word as [|a word' IH]; intros W; [reflexivity|].
  destruct W as [|b W']; cbn; [discriminate|].
  intros H. apply andb_prop in H. destruct H as [Hab H].
  rewrite Hab. cbn [andb]. apply IH. exact H.
Qed.

Lemma substring_after W tail :
  substring (String.length W)
    (String.length (W ++ tail) - String.length W) (W ++ tail) = tail.
Proof.
  induction W as [|b W' IH]; cbn [append String.length].
  - rewrite Nat.sub_0_r. apply substring_whole.
  - cbn [substring Nat.sub]. exact IH.
Qed.

Lemma skipWhiteSpace_prefix ws rest :
  allWhiteSpace ws = true -> skipWhiteSpace (ws ++ rest) = skipWhiteSpace rest.
Proof.
  induction ws as [|c ws' IH]; intros H; [reflexivity|].
  cbn [allWhiteSpace] in H. apply andb_prop in H. destruct H as [Hc H].
  cbn [append skipWhiteSpace]. rewrite Hc. apply IH. exact H.
Qed.

(** The currency word, in any case, followed by white space to the end is
    a match of the suffix expression. *)
Lemma currencySuffixHere_decoration ws1 W ws2 word :
  allWhiteSpace ws1 = true -> allWhiteSpace ws2 = true ->
  In word ["USDC"; "USD"; "SUI"] ->
  String.length W = String.length word ->
  startsWithIgnoringCase word W = true ->
  currencySuffixHere (ws1 ++ W ++ ws2) = true
  /\ forall c rest, ws1 ++ W ++ ws2 = String c rest ->
                    Ascii.eqb c "$" = false.
Proof.
  intros H1 H2 Hword Hlen HW.
  assert (Hfirst : exists b W', W = String b W'
             /\ Js.isStrWhiteSpaceChar b = false /\ Ascii.eqb b "$" = false).
  { destruct W as [|b W'].
    - destruct Hword as [<-|[<-|[<-|[]]]]; discriminate.
    - exists b, W'. split; [reflexivity|]. apply currency_initial.
      destruct Hword as [<-|[<-|[<-|[]]]];
        cbn [startsWithIgnoringCase] in HW;
        apply andb_prop in HW; destruct HW as [Hb _]; rewrite Hb;
        [reflexivity|reflexivity|apply orb_true_r]. }
  destruct Hfirst as (b & W' & -> & Hb & Hdollar).
  split.
  - unfold currencySuffixHere. rewrite (skipWhiteSpace_prefix _ _ H1).
    cbn [append skipWhiteSpace]. rewrite Hb.
    change (String b (W' ++ ws2)) with (String b W' ++ ws2).
    assert (Hhere : currencyThenEnd word (String b W' ++ ws2) = true).
    { unfold currencyThenEnd.
      rewrite (startsWithIgnoringCase_append _ _ ws2 HW). cbn [andb].
      rewrite <- Hlen, substring_after. exact H2. }
    destruct Hword as [<-|[<-|[<-|[]]]]; rewrite Hhere;
      repeat rewrite orb_true_r; reflexivity.
  - intros c rest Heq. destruct ws1 as [|x ws1'].
    + cbn in Heq. injection Heq as <- _. exact Hdollar.
    + cbn in Heq. injection Heq as <- _.
      cbn [allWhiteSpace] in H1. apply andb_prop in H1.
      apply white_space_not_dollar. apply H1.
Qed.

Lemma removeCurrencySuffix_plain m tail :
  isPlainDecimal m = true ->
  removeCurrencySuffix (m ++ tail) = m ++ removeCurrencySuffix tail.
Proof.
  induction m as [|c rest IH]; intros H; [reflexivity|].
  cbn [isPlainDecimal] in H. apply andb_prop in H. destruct H as [Hc Hrest].
  destruct (plain_char c Hc) as (Hws & _ & HU & HS).
  cbn [append]. cbn [removeCurrencySuffix].
  assert (Hno : currencySuffixHere (String c (rest ++ tail)) = false).
  { unfold currencySuffixHere. cbn [skipWhiteSpace]. rewrite Hws.
    unfold currencyThenEnd. cbn [startsWithIgnoringCase].
    rewrite HU, HS. reflexivity. }
  rewrite Hno. rewrite (IH Hrest). reflexivity.
Qed.

Lemma removeLeadingDollar_other s :
  (forall c rest, s = String c rest -> Ascii.eqb c "$" = false) ->
  removeLeadingDollar s = s.
Proof.
  destruct s as [|c rest]; intros H; [reflexivity|].
  cbn. rewrite (H c rest eq_refl). reflexivity.
Qed.

Lemma removeLeadingDollar_decorated (dollar : bool) s :
  (forall c rest, s = String c rest -> Ascii.eqb c "$" = false) ->
  removeLeadingDollar ((if dollar then "$" else "") ++ s) = s.
Proof.
  intros H. destruct dollar; [reflexivity|].
  apply removeLeadingDollar_other. exact H.
Qed.

(** X15. The decorations of a money text do not reach the number parser.
    For a text [m] of digits and dots, with or without a leading dollar
    sign, and with or without a currency word ([USDC], [USD] or [SUI] in
    any case) set off by any white space: [parseMoneyToDecimal] gives
    [parseFloat m], provided that is a number. *)
Theorem money_decorations_are_dropped (dollar : bool) m ws1 W ws2 word :
  isPlainDecimal m = true ->
  allWhiteSpace ws1 = true ->
  allWhiteSpace ws2 = true ->
  In word ["USDC"; "USD"; "SUI"] ->
  String.length W = String.length word ->
  startsWithIgnoringCase word W = true ->
  isNaN (parseFloat m) = false ->
  parseMoneyToDecimal Number parseFloat isNaN
    (MoneyString Number
       ((if dollar then "$" else "") ++ m ++ ws1 ++ W ++ ws2))
  = Normal (parseFloat m)
  /\ parseMoneyToDecimal Number parseFloat isNaN
       (MoneyString Number ((if dollar then "$" else "") ++ m))
     = Normal (parseFloat m).
Proof.
  intros Hm H1 H2 Hword Hlen HW Hnan.
  destruct (currencySuffixHere_decoration ws1 W ws2 word H1 H2 Hword Hlen HW)
    as [Hhere Hdollar].
  assert (Hhead : forall tail,
             (forall c rest, tail = String c rest -> Ascii.eqb c "$" = false) ->
             forall c rest, m ++ tail = String c rest ->
                            Ascii.eqb c "$" = false).
  { intros tail Htail c rest Heq. destruct m as [|x m'].
    - apply (Htail c rest). exact Heq.
    - cbn in Heq. injection Heq as <- _.
      cbn [isPlainDecimal] in Hm. apply andb_prop in Hm.
      apply (plain_char x). apply Hm. }
  assert (Htrim : Js.trim m = m).
  { apply trim_without_white_space. apply isPlainDecimal_chars. exact Hm. }
  unfold parseMoneyToDecimal. split.
  - rewrite removeLeadingDollar_decorated by (apply Hhead; exact Hdollar).
    rewrite (removeCurrencySuffix_plain m _ Hm).
    assert (Hcut : removeCurrencySuffix (ws1 ++ W ++ ws2) = "").
    { destruct (ws1 ++ W ++ ws2); cbn [removeCurrencySuffix];
        rewrite Hhere; reflexivity. }
    rewrite Hcut, append_empty_r, Htrim, Hnan. reflexivity.
  - rewrite removeLeadingDollar_decorated.
    2:{ intros c rest Heq.
        apply (Hhead "" ltac:(intros ? ? H; discriminate H) c rest).
        rewrite append_empty_r. exact Heq. }
    assert (Hsame : removeCurrencySuffix m = m).
    { pose proof (removeCurrencySuffix_plain m "" Hm) as H.
      change (removeCurrencySuffix "") with "" in H.
      rewrite !append_empty_r in H. exact H. }
    rewrite Hsame, Htrim, Hnan. reflexivity.
Qed.

(** *** Objects *)

Lemma objectGet_objectSet (o : Obj JsValue) key value k :
  objectGet JsValue (objectSet JsValue o key value) k
  = if key =? k then Some value else objectGet JsValue o k.
Proof.
  induction o as [|[k0 v0] rest IH]; cbn [objectSet objectGet].
  - destruct (key =? k); reflexivity.
  - destruct (k0 =? key) eqn:H0; cbn [objectGet].
    + apply String.eqb_eq in H0. subst k0.
      destruct (key =? k); reflexivity.
    + rewrite IH. destruct (k0 =? k) eqn:H1; [|reflexivity].
      apply String.eqb_eq in H1. subst k0.
      rewrite String.eqb_sym, H0. reflexivity.
Qed.

Lemma objectGet_absent (o : Obj JsValue) k :
  ~ In k (map fst o) -> objectGet JsValue o k = None.
Proof.
  induction o as [|[k0 v0] rest IH]; intros H; [reflexivity|].
  cbn [objectGet]. destruct (k0 =? k) eqn:H0.
  - apply String.eqb_eq in H0. destruct H. left. exact H0.
  - apply IH. intros Hin. apply H. right. exact Hin.
Qed.

Lemma objectGet_spreadInto (target source : Obj JsValue) k :
  NoDup (map fst source) ->
  objectGet JsValue (spreadInto JsValue target (Some source)) k
  = match objectGet JsValue source k with
    | Some v => Some v
    | None => objectGet JsValue target k
    end.
Proof.
  unfold spreadInto. cbn [Js.nullish].
  revert target. induction source as [|[k0 v0] rest IH]; intros target Hnd;
    [reflexivity|].
  cbn [fold_left fst snd objectGet]. cbn [map fst] in Hnd.
  inversion Hnd as [|? ? Hnotin Hrest]; subst.
  rewrite (IH _ Hrest). rewrite objectGet_objectSet.
  destruct (k0 =? k) eqn:H0; [|reflexivity].
  apply String.eqb_eq in H0. subst k0.
  rewrite (objectGet_absent rest k Hnotin). reflexivity.
Qed.

Lemma objectGet_spread (target : Obj JsValue) (source : option (Obj JsValue))
  k :
  NoDup (map fst (Js.nullish source [])) ->
  objectGet JsValue (spreadInto JsValue target source) k
  = match objectGet JsValue (Js.nullish source []) k with
    | Some v => Some v
    | None => objectGet JsValue target k
    end.
Proof.
  destruct source as [source|]; [apply objectGet_spreadInto|].
  intros _. reflexivity.
Qed.

(** X16. [enhancePaymentRequirements] changes only [extra].  Whether or
    not the requirements and the facilitator have extras, the new [extra]
    is an object; looking a key up in it gives the value of the
    facilitator's extras when they have the key, and the value of the
    requirements' own extras otherwise, an [undefined] side counting as
    the empty object. *)
Theorem enhance_merges_extras requirements (kind : option (Obj JsValue))
  extensionKeys k :
  NoDup (map fst (Js.nullish (requirementsExtra JsValue requirements) [])) ->
  NoDup (map fst (Js.nullish kind [])) ->
  let enhanced :=
    enhancePaymentRequirements JsValue requirements kind extensionKeys in
  base JsValue enhanced = base JsValue requirements
  /\ exists merged,
       requirementsExtra JsValue enhanced = Some merged
       /\ objectGet JsValue merged k
          = match objectGet JsValue (Js.nullish kind []) k with
            | Some v => Some v
            | None =>
                objectGet JsValue
                  (Js.nullish (requirementsExtra JsValue requirements) []) k
            end.
Proof.
  intros Hnd1 Hnd2. cbv zeta. unfold enhancePaymentRequirements.
  cbn [base requirementsExtra]. split; [reflexivity|].
  eexists. split; [reflexivity|].
  rewrite (objectGet_spread _ kind k Hnd2).
  destruct (objectGet JsValue (Js.nullish kind []) k); [reflexivity|].
  rewrite (objectGet_spread [] (requirementsExtra JsValue requirements) k
             Hnd1).
  destruct (objectGet JsValue
              (Js.nullish (requirementsExtra JsValue requirements) []) k);
    reflexivity.
Qed.

End MoneyFacts.

(** ** index.ts: one client per network *)

Section ClientFacts.

Variable getFullnodeUrl : string -> string.

Lemma JsMap_get_set {A : Type} (m : list (string * A)) key (value : A) k :
  JsMap.get (JsMap.set m key value) k
  = if key =? k then Some value else JsMap.get m k.
Proof.
  induction m as [|[k0 v0] rest IH]; cbn [JsMap.set JsMap.get].
  - destruct (key =? k); reflexivity.
  - destruct (k0 =? key) eqn:H0; cbn [JsMap.get].
    + apply String.eqb_eq in H0. subst k0.
      destruct (key =? k); reflexivity.
    + rewrite IH. destruct (k0 =? k) eqn:H1; [|reflexivity].
      apply String.eqb_eq in H1. subst k0.
      rewrite String.eqb_sym, H0. reflexivity.
Qed.

Lemma createSuiClient_heap network custom h :
  match createSuiClient getFullnodeUrl network custom h with
  | (Normal client, h') =>
      clientCache h' = clientCache h
      /\ allocated h' = S (allocated h)
      /\ SuiClient.objectId client = allocated h
  | (Throw _, h') => h' = h
  end.
Proof.
  unfold createSuiClient, newSuiClient.
  destruct (urlTruthy custom); [repeat split|].
  destruct (network =? Constants.SUI_MAINNET_CAIP2); [repeat split|].
  destruct (network =? Constants.SUI_TESTNET_CAIP2); [repeat split|].
  destruct (network =? Constants.SUI_DEVNET_CAIP2); [repeat split|].
  reflexivity.
Qed.

(** X17. [getClient] makes at most one client per network.  A call that
    returns a client leaves it in the cache under its network: calling
    again for that network, with any configuration, returns the same
    object and changes nothing, and the entries of the other networks are
    as they were.  A call that throws leaves cache and heap as they
    were. *)
Theorem getClient_caches_per_network config network h :
  match getClient getFullnodeUrl config network h with
  | (Normal client, h1) =>
      (forall config',
          getClient getFullnodeUrl config' network h1 = (Normal client, h1))
      /\ (forall other,
             other <> network ->
             JsMap.get (clientCache h1) other
             = JsMap.get (clientCache h) other)
      /\ allocated h1 <= S (allocated h)
  | (Throw _, h1) => h1 = h
  end.
Proof.
  unfold getClient at 1.
  destruct (JsMap.get (clientCache h) network) as [cached|] eqn:Hget.
  - split; [|split; [reflexivity|lia]].
    intros config'. unfold getClient. rewrite Hget. reflexivity.
  - pose proof (createSuiClient_heap network
                  (chosenRpcUrl config network) h) as Hheap.
    destruct (createSuiClient getFullnodeUrl network _ h)
      as [[client|e] h'].
    + destruct Hheap as (Hcache & Halloc & _). split; [|split].
      * intros config'. unfold getClient. cbn [clientCache].
        rewrite JsMap_get_set, String.eqb_refl. reflexivity.
      * intros other Hother. cbn [clientCache].
        rewrite JsMap_get_set, Hcache.
        destruct (network =? other) eqn:Heq; [|reflexivity].
        apply String.eqb_eq in Heq. congruence.
      * cbn [allocated]. lia.
    + exact Hheap.
Qed.

(** X18. The URL of a client made on a cache miss.  A non-empty entry of
    [rpcUrls] for the network is used, for any network name.  When
    [rpcUrls[network]] finds nothing, a non-empty general [rpcUrl] is used.
    An entry that is the empty text hides the general URL, and the client
    is made as without configuration.  For a network named like a member
    of [Object.prototype] and without an entry of its own, [rpcUrls]
    yields that member: it is passed on as the URL, the general URL is not
    consulted, and no network is refused.  Without configuration a network
    other than the three of Sui is refused with an error. *)
Theorem getClient_chooses_the_url config network h :
  JsMap.get (clientCache h) network = None ->
  (forall u,
      networkRpcUrl config network = Some (UrlText u) -> u <> "" ->
      exists client h1,
        getClient getFullnodeUrl config network h = (Normal client, h1)
        /\ SuiClient.url client = UrlText u)
  /\ (forall u,
        networkRpcUrl config network = None ->
        chosenRpcUrl config network = Some (UrlText u) -> u <> "" ->
        exists client h1,
          getClient getFullnodeUrl config network h = (Normal client, h1)
          /\ SuiClient.url client = UrlText u)
  /\ (networkRpcUrl config network = Some (UrlText "") ->
      getClient getFullnodeUrl config network h
      = getClient getFullnodeUrl None network h)
  /\ (forall c urls,
        config = Some c ->
        SignerConfig.rpcUrls c = Some urls ->
        JsMap.get urls network = None ->
        isObjectPrototypeKey network = true ->
        exists client h1,
          getClient getFullnodeUrl config network h = (Normal client, h1)
          /\ SuiClient.url client = PrototypeMember network)
  /\ (network <> Constants.SUI_MAINNET_CAIP2 ->
      network <> Constants.SUI_TESTNET_CAIP2 ->
      network <> Constants.SUI_DEVNET_CAIP2 ->
      getClient getFullnodeUrl None network h
      = (Throw (ErrorInstance ("Unsupported Sui network: " ++ network)), h)).
Proof.
  intros Hmiss. unfold getClient. rewrite Hmiss.
  assert (Htruthy : forall u, u <> "" -> urlTruthy (Some (UrlText u)) = true).
  { intros u Hu. cbn. destruct (u =? "") eqn:He; [|reflexivity].
    apply String.eqb_eq in He. contradiction. }
  split; [|split; [|split; [|split]]].
  - intros u Hnet Hu. unfold chosenRpcUrl. rewrite Hnet.
    unfold createSuiClient. rewrite (Htruthy u Hu). cbn.
    eexists _, _. split; reflexivity.
  - intros u _ Hchosen Hu. rewrite Hchosen.
    unfold createSuiClient. rewrite (Htruthy u Hu). cbn.
    eexists _, _. split; reflexivity.
  - intros Hnet. unfold chosenRpcUrl. rewrite Hnet. reflexivity.
  - intros c urls -> Hurls Hown Hinherited.
    unfold chosenRpcUrl, networkRpcUrl. rewrite Hurls, Hown, Hinherited.
    unfold createSuiClient. cbn.
    eexists _, _. split; reflexivity.
  - intros Hm Ht Hd. cbn [chosenRpcUrl networkRpcUrl].
    unfold createSuiClient. cbn [urlTruthy].
    apply String.eqb_neq in Hm, Ht, Hd. rewrite Hm, Ht, Hd. reflexivity.
Qed.

End ClientFacts.

(** ** The further properties on concrete runs *)

(** X1 at work: the valid payment of the test suite. *)
Lemma valid_payment_is_backed_by_its_change :
  preChecksPass Mock.thePayload Mock.theRequirements = true
  /\ exists P dry change delta required,
       outcome (signatureCall (Mock.paying "100000") Mock.thePayload
                  Mock.theRequirements Mock.start) = Normal P
       /\ VerifyResponse.payer (validResponse Mock.PAYER) = Some P
       /\ outcome (simulationCall (Mock.paying "100000") Mock.thePayload
                     Mock.theRequirements Mock.start) = Normal dry
       /\ isSuccess (effectsStatus dry) = true
       /\ In change (Js.nullish (balanceChanges dry) [])
       /\ extractAddress (owner change)
          = Requirements.payTo Mock.theRequirements
       /\ coinTypesEqual SuiUtils.normalizeStructTag (coinType change)
            (Requirements.asset Mock.theRequirements) = Normal true
       /\ Js.BigInt (amount change) = Normal delta
       /\ Js.BigInt (Requirements.amount Mock.theRequirements)
          = Normal required
       /\ (required <= delta)%Z.
Proof.
  apply (valid_verdict_is_backed_by_a_change Mock.Chain
           SuiUtils.normalizeStructTag (Mock.paying "100000")
           Mock.thePayload Mock.theRequirements Mock.start
           (validResponse Mock.PAYER) Mock.afterReads);
    reflexivity.
Defined.

(** X3 at work: a payload accepted for the test network. *)
Lemma network_mismatch_of_the_test_network :
  verify SuiUtils.normalizeStructTag (Mock.paying "100000")
    (Mock.createMockPayload "exact" "sui:testnet") Mock.theRequirements
    Mock.start
  = (Normal (invalid "network_mismatch" None None), Mock.start).
Proof.
  apply (proj1 (proj2
           (preChecks_answer_in_order Mock.Chain SuiUtils.normalizeStructTag
              (Mock.paying "100000")
              (Mock.createMockPayload "exact" "sui:testnet")
              Mock.theRequirements Mock.start)));
    reflexivity.
Defined.

(** X6 at work: an insufficient change listed before a sufficient one. *)
Lemma insufficient_change_listed_first :
  fst (verify SuiUtils.normalizeStructTag
         (Mock.returning
            [Mock.change (AddressOwner Mock.OTHER) Mock.USDC "999999";
             Mock.change (AddressOwner Mock.PAYTO) Mock.USDC "50000";
             Mock.change (AddressOwner Mock.PAYTO) Mock.USDC "100000"])
         Mock.thePayload Mock.theRequirements Mock.start)
  = Normal (invalid "invalid_exact_sui_payload_amount_insufficient"
              None (Some Mock.PAYER)).
Proof.
  apply (first_matching_change_decides Mock.Chain SuiUtils.normalizeStructTag
           (Mock.returning
              [Mock.change (AddressOwner Mock.OTHER) Mock.USDC "999999";
               Mock.change (AddressOwner Mock.PAYTO) Mock.USDC "50000";
               Mock.change (AddressOwner Mock.PAYTO) Mock.USDC "100000"])
           Mock.thePayload Mock.theRequirements Mock.start Mock.PAYER
           (Mock.createSuccessfulDryRun
              [Mock.change (AddressOwner Mock.OTHER) Mock.USDC "999999";
               Mock.change (AddressOwner Mock.PAYTO) Mock.USDC "50000";
               Mock.change (AddressOwner Mock.PAYTO) Mock.USDC "100000"])
           [Mock.change (AddressOwner Mock.OTHER) Mock.USDC "999999"]
           (Mock.change (AddressOwner Mock.PAYTO) Mock.USDC "50000")
           [Mock.change (AddressOwner Mock.PAYTO) Mock.USDC "100000"]
           50000%Z 100000%Z);
    try reflexivity.
  intros bc [<-|[]]. reflexivity.
Defined.

(** X9 at work: the recipient of the test suite and an immutable owner. *)
Lemma validated_recipient_refuses_immutable :
  isRecipientChange Mock.theRequirements
    (Mock.change Immutable Mock.USDC "100000") = true
  <-> Immutable = AddressOwner Mock.PAYTO.
Proof.
  apply (validated_payTo_admits_address_owners_only Mock.theRequirements
           (Mock.change Immutable Mock.USDC "100000")).
  reflexivity.
Defined.

(** X10 at work: ten cents in USDC units. *)
Lemma ten_cents_is_canonical :
  "100000" <> "" /\ ("100000" = "0" \/ String.prefix "0" "100000" = false).
Proof.
  apply (convertToTokenAmount_is_canonical TestEngine.Number
           TestEngine.parseFloat TestEngine.isNaN TestEngine.toFixed
           "0.10" 6 "100000").
  reflexivity.
Defined.

(** X11 at work: [4.02] with six decimals. *)
Lemma four_dollars_two_cents_moves_the_point :
  exists tokenAmount,
    convertToTokenAmount TestEngine.Number TestEngine.parseFloat
      TestEngine.isNaN TestEngine.toFixed "4.02" 6 = Normal tokenAmount
    /\ Js.BigInt tokenAmount = Normal (4 * 10 ^ Z.of_nat 6 + 20000)%Z.
Proof.
  apply (convertToTokenAmount_moves_the_point TestEngine.Number
           TestEngine.parseFloat TestEngine.isNaN TestEngine.toFixed
           "4.02" 6 "4" "020000" 4%Z 20000%Z);
    reflexivity.
Defined.

(** X12 at work: a parser that declines, then one that answers in SUI. *)
Lemma sui_parser_answers_after_a_decline :
  parsePrice TestEngine.Number TestEngine.parseFloat TestEngine.isNaN
    TestEngine.toFixed TestEngine.toString string
    [TestEngine.decliningParser; TestEngine.suiParser]
    (PriceMoney TestEngine.Number string
       (MoneyString TestEngine.Number "1.00"))
    Constants.SUI_MAINNET_CAIP2
  = Normal {| AssetAmount.amount := "1000000000";
              AssetAmount.asset := Constants.SUI_COIN_TYPE;
              AssetAmount.extra := [] |}.
Proof.
  apply (proj1
           (first_parser_to_answer_wins TestEngine.Number
              TestEngine.parseFloat TestEngine.isNaN TestEngine.toFixed
              TestEngine.toString string
              [TestEngine.decliningParser] TestEngine.suiParser []
              (MoneyString TestEngine.Number "1.00") "1"
              Constants.SUI_MAINNET_CAIP2 eq_refl
              ltac:(intros q [<-|[]]; reflexivity))).
  reflexivity.
Defined.

(** X13 at work: the pre-parsed price of the test suite. *)
Lemma pre_parsed_price_is_passed_through :
  exists coin,
    Some Constants.SUI_COIN_TYPE = Some coin
    /\ parsePrice TestEngine.Number TestEngine.parseFloat TestEngine.isNaN
         TestEngine.toFixed TestEngine.toString string
         [TestEngine.suiParser]
         (PriceAssetAmount TestEngine.Number string
            {| PriceObject.amount := "123456";
               PriceObject.asset := Some Constants.SUI_COIN_TYPE;
               PriceObject.extra := None |})
         "eip155:8453"
       = Normal {| AssetAmount.amount := "123456";
                   AssetAmount.asset := coin;
                   AssetAmount.extra := [] |}.
Proof.
  apply (proj1
           (asset_amount_is_passed_through TestEngine.Number
              TestEngine.parseFloat TestEngine.isNaN TestEngine.toFixed
              TestEngine.toString string [TestEngine.suiParser]
              {| PriceObject.amount := "123456";
                 PriceObject.asset := Some Constants.SUI_COIN_TYPE;
                 PriceObject.extra := None |}
              "eip155:8453")).
  reflexivity.
Defined.

(** X14 at work: ten cents on the main network. *)
Lemma ten_cents_is_mainnet_usdc :
  (Constants.SUI_MAINNET_CAIP2 = Constants.SUI_MAINNET_CAIP2
   /\ Constants.USDC_MAINNET = Constants.USDC_MAINNET
   \/ (Constants.SUI_MAINNET_CAIP2 = Constants.SUI_TESTNET_CAIP2
       \/ Constants.SUI_MAINNET_CAIP2 = Constants.SUI_DEVNET_CAIP2)
      /\ Constants.USDC_MAINNET = Constants.USDC_TESTNET)
  /\ @nil (string * string) = []
  /\ "100000" <> ""
  /\ ("100000" = "0" \/ String.prefix "0" "100000" = false).
Proof.
  apply (default_conversion_is_usdc TestEngine.Number TestEngine.parseFloat
           TestEngine.isNaN TestEngine.toFixed TestEngine.toString string
           (MoneyString TestEngine.Number "$0.10")
           Constants.SUI_MAINNET_CAIP2
           {| AssetAmount.amount := "100000";
              AssetAmount.asset := Constants.USDC_MAINNET;
              AssetAmount.extra := [] |}).
  reflexivity.
Defined.

(** X15 at work: a dollar sign and a currency word in lower case. *)
Lemma decorated_ten_cents :
  parseMoneyToDecimal TestEngine.Number TestEngine.parseFloat
    TestEngine.isNaN (MoneyString TestEngine.Number "$0.10 usdc")
  = Normal (TestEngine.parseFloat "0.10")
  /\ parseMoneyToDecimal TestEngine.Number TestEngine.parseFloat
       TestEngine.isNaN (MoneyString TestEngine.Number "$0.10")
     = Normal (TestEngine.parseFloat "0.10").
Proof.
  apply (money_decorations_are_dropped TestEngine.Number
           TestEngine.parseFloat TestEngine.isNaN true "0.10" " " "usdc" ""
           "USDC");
    try reflexivity.
  left. reflexivity.
Defined.

(** X16 at work: the gas station of the facilitator joins requirements
    that have no extras. *)
Lemma gas_station_joins_the_extras :
  let enhanced :=
    enhancePaymentRequirements string
      {| base := Mock.theRequirements; requirementsExtra := None |}
      (Some [("gasStation", "https://gas.example.com")]) [] in
  base string enhanced = Mock.theRequirements
  /\ exists merged,
       requirementsExtra string enhanced = Some merged
       /\ objectGet string merged "gasStation"
          = match objectGet string
                    [("gasStation", "https://gas.example.com")]
                    "gasStation" with
            | Some v => Some v
            | None => objectGet string [] "gasStation"
            end.
Proof.
  apply (enhance_merges_extras string
           {| base := Mock.theRequirements; requirementsExtra := None |}
           (Some [("gasStation", "https://gas.example.com")]) []
           "gasStation").
  - constructor.
  - constructor; [intros []|constructor].
Defined.

(** X18 at work: a URL set for the test network. *)
Lemma custom_url_for_the_test_network :
  exists client h1,
    getClient TestEngine.getFullnodeUrl
      (Some {| SignerConfig.rpcUrl := None;
               SignerConfig.rpcUrls :=
                 Some [("sui:testnet", "https://rpc.example.com")] |})
      "sui:testnet" {| clientCache := []; allocated := 0 |}
    = (Normal client, h1)
    /\ SuiClient.url client = UrlText "https://rpc.example.com".
Proof.
  apply (proj1
           (getClient_chooses_the_url TestEngine.getFullnodeUrl
              (Some {| SignerConfig.rpcUrl := None;
                       SignerConfig.rpcUrls :=
                         Some [("sui:testnet", "https://rpc.example.com")] |})
              "sui:testnet" {| clientCache := []; allocated := 0 |}
              eq_refl)
           "https://rpc.example.com" eq_refl).
  discriminate.
Defined.

(** ** The scheme on signers in full *)

Section RawFacts.

Variable Chain : Type.
Variable normalizeStructTag : string -> Completion string.

Implicit Types (p : PaymentPayload) (r : PaymentRequirements)
  (w : World Chain).

Ltac raw_steps :=
  unfold rbind, rtryCatch, raw_verifySignature, raw_simulateTransaction,
    raw_executeTransaction, raw_waitForTransaction, rlift, rret, rreject,
    rawClassify, rawTransactionFailed, calledOf;
  cbn [chain calls fst snd].

Lemma classifyError_rejects e :
  exists reason,
    VerifyResponse.invalidReason (classifyError e) = Some reason.
Proof.
  destruct (classifyError_shape e) as [reason ->]. eexists. reflexivity.
Qed.

Lemma checkDryRun_rejects r P dry response :
  checkDryRun normalizeStructTag r P dry = Normal (inl response) ->
  exists reason, VerifyResponse.invalidReason response = Some reason.
Proof.
  intros H. apply checkDryRun_shape in H.
  destruct H as (reason & message & ->). eexists. reflexivity.
Qed.

(** With a signer whose errors yield a text, [verify] returns. *)
Lemma rawVerify_returns (s : RawSigner Chain) p r w :
  rendersItsErrors s ->
  exists vr w1,
    rawVerify normalizeStructTag s p r w = (Fulfilled vr, w1)
    /\ (VerifyResponse.isValid vr = false ->
        exists reason, VerifyResponse.invalidReason vr = Some reason).
Proof.
  intros (Hsig & Hsim & _ & _). unfold rawVerify.
  destruct (_ || _); [eexists _, _; split; [reflexivity|cbn; eauto]|].
  destruct (negb _); [eexists _, _; split; [reflexivity|cbn; eauto]|].
  destruct (_ || _); [eexists _, _; split; [reflexivity|cbn; eauto]|].
  raw_steps.
  specialize (Hsig (chain w) (payloadText (payloadTransaction p))
                (payloadText (payloadSignature p)) (Requirements.network r)).
  specialize (Hsim (chain w) (payloadText (payloadTransaction p))
                (Requirements.network r)).
  destruct (rawVerifySignature s _ _ _ _) as [p1|[e|f]];
    cbn [calledRenders isRendered] in Hsig; try discriminate.
  2:{ eexists _, _. split; [reflexivity|]. intros _.
      apply classifyError_rejects. }
  destruct (rawSimulateTransaction s _ _ _) as [p2|[e|f]];
    cbn [calledRenders isRendered] in Hsim; try discriminate.
  2:{ eexists _, _. split; [reflexivity|]. intros _.
      apply classifyError_rejects. }
  unfold RawPromise_all.
  destruct (rawOutcome p1) as [P|[e1|f1]];
    cbn [settledRenders isRendered] in Hsig; try discriminate;
    destruct (rawOutcome p2) as [dry|[e2|f2]];
    cbn [settledRenders isRendered] in Hsim; try discriminate;
    try destruct (_ <? _)%nat;
    try (eexists _, _; split; [reflexivity|]; intros _;
         apply classifyError_rejects).
  cbn [fst snd].
  destruct (checkDryRun normalizeStructTag r P dry)
    as [[response|payer]|e] eqn:Hc; cbn [settledOf].
  - eexists _, _. split; [reflexivity|]. intros _.
    apply (checkDryRun_rejects r P dry response Hc).
  - eexists _, _. split; [reflexivity|]. discriminate.
  - eexists _, _. split; [reflexivity|]. intros _.
    apply classifyError_rejects.
Qed.

(** C9, as the code has it.  For every payload and requirements and
    every signer, with methods that may throw when they are called or
    return promises that reject, provided each value it raises yields a
    text (an [Error] with its message, or a value [String] renders):
    [verify] and [settle] return a response and throw nothing, and a
    response that is not valid, or not a success, names its reason. *)
Theorem verify_and_settle_return_when_errors_render
  (s : RawSigner Chain) p r w :
  rendersItsErrors s ->
  (exists vr w1,
      rawVerify normalizeStructTag s p r w = (Fulfilled vr, w1)
      /\ (VerifyResponse.isValid vr = false ->
          exists reason, VerifyResponse.invalidReason vr = Some reason))
  /\ (exists sr w2,
        rawSettle normalizeStructTag s p r w = (Fulfilled sr, w2)
        /\ (SettleResponse.success sr = false ->
            exists reason, SettleResponse.errorReason sr = Some reason)).
Proof.
  intros Hs.
  destruct (rawVerify_returns s p r w Hs) as (vr & w1 & Hv & Hreason).
  split; [eauto|].
  destruct Hs as (_ & _ & Hexec & Hwait).
  unfold rawSettle, rbind at 1. rewrite Hv.
  destruct (VerifyResponse.isValid vr); cbn [negb].
  - raw_steps.
    specialize (Hexec (chain w1) (payloadText (payloadTransaction p))
                  (payloadText (payloadSignature p))
                  (Requirements.network r)).
    destruct (rawExecuteTransaction s _ _ _ _) as [[digest|[e|f]] after];
      cbn [fst snd settledRenders isRendered] in *; try discriminate.
    + specialize (Hwait after digest (Requirements.network r)).
      destruct (rawWaitForTransaction s after digest _) as [[]|[e|f]];
        cbn [settledRenders isRendered] in Hwait; try discriminate;
        eexists _, _; (split; [reflexivity|]); cbn; eauto; discriminate.
    + eexists _, _; (split; [reflexivity|]); cbn; eauto.
  - eexists _, _; (split; [reflexivity|]); cbn; eauto.
Qed.

(** The two embeddings agree on the signers of the first. *)
Lemma rawVerify_plain (s : FacilitatorSuiSigner Chain) p r w :
  rawVerify normalizeStructTag (plainSigner s) p r w
  = (settledOf (fst (verify normalizeStructTag s p r w)),
     snd (verify normalizeStructTag s p r w)).
Proof.
  unfold rawVerify, verify.
  destruct (_ || _); [reflexivity|].
  destruct (negb _); [reflexivity|].
  destruct (_ || _); [reflexivity|].
  raw_steps.
  unfold bind, tryCatch, await, lift, ret, signer_verifySignature,
    signer_simulateTransaction, logged, plainSigner, RawPromise_all,
    Promise_all.
  cbn [chain calls rawVerifySignature rawSimulateTransaction rawOutcome
       rawSettledAt].
  destruct (outcome (verifySignature s _ _ _ _)) as [P|e1];
    destruct (outcome (simulateTransaction s _ _ _)) as [dry|e2];
    cbn [settledOf outcome];
    try (destruct (_ <? _)%nat; cbn [outcome]); try reflexivity.
  cbn [fst snd].
  destruct (checkDryRun normalizeStructTag r P dry) as [[response|payer]|e];
    reflexivity.
Qed.

Lemma rawSettle_plain (s : FacilitatorSuiSigner Chain) p r w :
  rawSettle normalizeStructTag (plainSigner s) p r w
  = (settledOf (fst (settle normalizeStructTag s p r w)),
     snd (settle normalizeStructTag s p r w)).
Proof.
  unfold rawSettle, rbind at 1. rewrite rawVerify_plain.
  unfold settle, bind.
  destruct (verify normalizeStructTag s p r w) as [[vr|e] w1];
    cbn [fst snd settledOf]; [|reflexivity].
  destruct (VerifyResponse.isValid vr); cbn [negb]; [|reflexivity].
  raw_steps.
  unfold tryCatch, ret, signer_executeTransaction,
    signer_waitForTransaction, logged, plainSigner.
  cbn [chain calls rawExecuteTransaction rawWaitForTransaction].
  destruct (executeTransaction s _ _ _ _) as [[digest|e] after];
    cbn [fst snd settledOf chain calls]; [|reflexivity].
  destruct (waitForTransaction s after digest _) as [[]|e]; reflexivity.
Qed.

(** X2. [verify] only reads, whatever the signer does.  Short of the
    pre-checks it calls nothing.  Past them it calls [verifySignature]
    once and then, unless that call itself threw, [simulateTransaction]
    once, with the transaction and the signature of the payload and the
    network of the requirements; it calls nothing else, and the chain is
    the one it started from, also when [verify] throws. *)
Theorem verify_reads_and_nothing_else (s : RawSigner Chain) p r w :
  exists result,
    rawVerify normalizeStructTag s p r w
    = (result,
       if preChecksPass p r then
         match rawVerifySignature s (chain w)
                 (payloadText (payloadTransaction p))
                 (payloadText (payloadSignature p))
                 (Requirements.network r) with
         | Returned _ =>
             {| chain := chain w;
                calls :=
                  calls w
                  ++ [CallVerifySignature
                        (payloadText (payloadTransaction p))
                        (payloadText (payloadSignature p))
                        (Requirements.network r);
                      CallSimulateTransaction
                        (payloadText (payloadTransaction p))
                        (Requirements.network r)] |}
         | ThrewWhenCalled _ =>
             {| chain := chain w;
                calls :=
                  calls w
                  ++ [CallVerifySignature
                        (payloadText (payloadTransaction p))
                        (payloadText (payloadSignature p))
                        (Requirements.network r)] |}
         end
       else w).
Proof.
  unfold rawVerify, preChecksPass.
  destruct (Accepted.scheme (accepted p) =? "exact");
    destruct (Requirements.scheme r =? "exact"); cbn [negb orb andb];
    try (eexists; reflexivity).
  destruct (Accepted.network (accepted p) =? Requirements.network r);
    cbn [negb andb]; try (eexists; reflexivity).
  destruct (Js.truthy (payloadTransaction p));
    destruct (Js.truthy (payloadSignature p)); cbn [negb orb andb];
    try (eexists; reflexivity).
  raw_steps.
  destruct (rawVerifySignature s _ _ _ _) as [p1|[e|f]];
    try (eexists; reflexivity).
  rewrite <- app_assoc. cbn [app].
  destruct (rawSimulateTransaction s _ _ _) as [p2|[e|f]];
    try (eexists; reflexivity).
  destruct (RawPromise_all p1 p2) as [[P dry]|[e|f]];
    try (eexists; reflexivity).
  cbn [fst snd].
  destruct (checkDryRun normalizeStructTag r P dry) as [[response|payer]|e];
    eexists; reflexivity.
Qed.

End RawFacts.

(** C9 at work: a [verifySignature] that throws an [Error] when called,
    before any promise is made. *)
Lemma verify_returns_when_the_call_throws :
  (exists vr w1,
      rawVerify SuiUtils.normalizeStructTag
        (RawMock.signer
           (ThrewWhenCalled (Rendered (ErrorInstance "Invalid signature")))
           (RawMock.promised (Fulfilled RawMock.payingDryRun))
           (Fulfilled "mock-digest-123") (Fulfilled tt))
        Mock.thePayload Mock.theRequirements Mock.start = (Fulfilled vr, w1)
      /\ (VerifyResponse.isValid vr = false ->
          exists reason, VerifyResponse.invalidReason vr = Some reason))
  /\ (exists sr w2,
        rawSettle SuiUtils.normalizeStructTag
          (RawMock.signer
             (ThrewWhenCalled (Rendered (ErrorInstance "Invalid signature")))
             (RawMock.promised (Fulfilled RawMock.payingDryRun))
             (Fulfilled "mock-digest-123") (Fulfilled tt))
          Mock.thePayload Mock.theRequirements Mock.start
        = (Fulfilled sr, w2)
        /\ (SettleResponse.success sr = false ->
            exists reason, SettleResponse.errorReason sr = Some reason)).
Proof.
  apply (verify_and_settle_return_when_errors_render Mock.Chain
           SuiUtils.normalizeStructTag
           (RawMock.signer
              (ThrewWhenCalled (Rendered (ErrorInstance "Invalid signature")))
              (RawMock.promised (Fulfilled RawMock.payingDryRun))
              (Fulfilled "mock-digest-123") (Fulfilled tt))
           Mock.thePayload Mock.theRequirements Mock.start).
  repeat split; intros; reflexivity.
Defined.

(** C9 fails as stated.  The signature call rejects with a value that is
    not an [Error] and on which [String] throws: the [catch] block of
    [verify] throws in its turn, [verify] rejects with that TypeError, and
    so does [settle].  The same happens in the [catch] block of [settle]
    when the broadcast rejects with such a value after a valid
    verification. *)
Lemma verify_throws_on_an_unrenderable_error :
  fst (rawVerify SuiUtils.normalizeStructTag
         (RawMock.signer
            (RawMock.promised (Rejected (Unrenderable RawMock.noPrimitive)))
            (RawMock.promised (Fulfilled RawMock.payingDryRun))
            (Fulfilled "mock-digest-123") (Fulfilled tt))
         Mock.thePayload Mock.theRequirements Mock.start)
  = Rejected (Rendered RawMock.noPrimitive)
  /\ fst (rawSettle SuiUtils.normalizeStructTag
            (RawMock.signer
               (RawMock.promised (Rejected (Unrenderable RawMock.noPrimitive)))
               (RawMock.promised (Fulfilled RawMock.payingDryRun))
               (Fulfilled "mock-digest-123") (Fulfilled tt))
            Mock.thePayload Mock.theRequirements Mock.start)
     = Rejected (Rendered RawMock.noPrimitive)
  /\ fst (rawSettle SuiUtils.normalizeStructTag
            (RawMock.signer
               (RawMock.promised (Fulfilled Mock.PAYER))
               (RawMock.promised (Fulfilled RawMock.payingDryRun))
               (Rejected (Unrenderable RawMock.noPrimitive)) (Fulfilled tt))
            Mock.thePayload Mock.theRequirements Mock.start)
     = Rejected (Rendered RawMock.noPrimitive).
Proof.
  repeat split.
Qed.
